(** * Flappy Physics: the simulation engine, embedded and verified

    A shallow embedding of the game core ([game/physics.ts], [game/bird.ts],
    [game/pipes.ts], [game/chaos.ts], [game/engine.ts] and the records of
    [types.ts]) followed by the properties of the engine.

    Conventions of the embedding.
    - A JavaScript [number] is an exact rational ([Q]); counters that the
      code only ever sets to integer literals and increments (score, frame
      counter, electric cycle fields) are integers ([Z]).  Comparisons are
      the boolean tests [<?], [>?], [>=?] on [Q].
    - An optional field ([isGhost?: boolean]) is an [option]; [None] is
      [undefined], and [truthy] is JavaScript truthiness.
    - The module-level variables [frameCount] (engine.ts) and [idCounter]
      (chaos.ts) and the stream behind [Math.random()] form the [World]
      that every effectful function threads through the monad [M].
    - [Math.sqrt], [Math.cos] and [Math.PI] are supplied by the host
      ([HostMath]); no property below depends on what they compute.
    - [Infinity] and [NaN] are outside the number model.  The only divisors
      the code does not guard are the durations of gamma rays and gravity
      flips, which are nonzero wherever the code creates them; the one
      remainder, in [updateElectricPipe], has its zero case written out. *)

From Stdlib Require Import QArith ZArith List String Bool Lia.
From Stdlib Require Import Qminmax Qround DecimalString Lqa.
Import ListNotations.

Open Scope Q_scope.

(** ** Numbers and truthiness *)

Definition Qltb (a b : Q) : bool := negb (Qle_bool b a).
Definition Qgtb (a b : Q) : bool := Qltb b a.
Definition Qgeb (a b : Q) : bool := Qle_bool b a.

Infix "<?" := Qltb (at level 70, no associativity) : Q_scope.
Infix ">?" := Qgtb (at level 70, no associativity) : Q_scope.
Infix ">=?" := Qgeb (at level 70, no associativity) : Q_scope.

(** [o] used as a condition: [undefined] and [false] are falsy. *)
Definition truthy (o : option bool) : bool :=
  match o with Some b => b | None => false end.

(** [n || d] on numbers: [undefined] and [0] fall back to [d]. *)
Definition orDefault (o : option Z) (d : Z) : Z :=
  match o with
  | Some 0%Z | None => d
  | Some n => n
  end.

(** [arr[i]] for an integer index: [undefined] outside the array. *)
Definition index {A : Type} (arr : list A) (i : Z) : option A :=
  if (i <? 0)%Z then None else nth_error arr (Z.to_nat i).

(** [arr.map(f).filter(r => r !== null)] *)
Fixpoint mapNotNull {A B : Type} (f : A -> option B) (arr : list A) : list B :=
  match arr with
  | [] => []
  | a :: rest =>
      match f a with
      | Some b => b :: mapNotNull f rest
      | None => mapNotNull f rest
      end
  end.

(** The host's transcendental functions. *)
Class HostMath := {
  Math_sqrt : Q -> Q;
  Math_cos : Q -> Q;
  Math_PI : Q
}.

(** ** config/constants.ts *)

Module GAME_CONFIG.
Definition speed_default : Q := 4.
Definition jumpHeight_default : Q := 7.
Definition gravity_default : Q := 0.4.
Definition pipeGap_default : Q := 160.
Definition pipeSpacing_default : Q := 280.
Definition pipeWidth : Q := 60.
End GAME_CONFIG.

Module CANVAS.
Definition width : Q := 480.
Definition height : Q := 640.
End CANVAS.

Module BIRD.
Definition x : Q := 80.
Definition startY : Q := 300.
Definition width : Q := 34.
Definition height : Q := 28.
End BIRD.

(** ** types.ts *)

Inductive PhysicsType := parabolic | linear | exponential | sine.

Module Bird.
Record t := mk {
    x : Q;
    y : Q;
    velocity : Q;
    width : Q;
    height : Q;
    jumpTime : Q
  }.
End Bird.

Inductive Phase := pulling | stretching | none.

Module BlackHoleEffect.
  (** [waitingToResume] is declared [boolean], but the record built when the
      event fires leaves the field out, so it is optional here. *)
Record t := mk {
    active : bool;
    progress : Q;
    phase : Phase;
    hasTriggeredThisGame : bool;
    waitingToResume : option bool
  }.
End BlackHoleEffect.

Module Pipe.
Record t := mk {
    x : Q;
    topHeight : Q;
    bottomY : Q;
    width : Q;
    passed : bool;
    isGhost : option bool;
    isRevealed : option bool;
    isElectric : option bool;
    electricActive : option bool;
    electricCycleTime : option Z;
    electricOnDuration : option Z;
    electricOffDuration : option Z
  }.
End Pipe.

Module ElectricPillar.
Record t := mk {
    id : string;
    x : Q;
    topY : Q;
    bottomY : Q;
    width : Q;
    isActive : bool;
    cycleTime : Q;
    onDuration : Q;
    offDuration : Q
  }.
End ElectricPillar.

Inductive RayState := warning | active | fading.

Module GammaRay.
Record t := mk {
    id : string;
    y : Q;
    width : Q;
    height : Q;
    warningTime : Q;
    activeTime : Q;
    state : RayState;
    progress : Q
  }.
End GammaRay.

Module GravityFlip.
Record t := mk {
    id : string;
    x : Q;
    width : Q;
    isActive : bool;
    duration : Q;
    progress : Q
  }.
End GravityFlip.

Module Vortex.
Record t := mk {
    id : string;
    x : Q;
    y : Q;
    radius : Q;
    strength : Q;
    rotation : Q
  }.
End Vortex.

Module Particle.
Record t := mk {
    id : string;
    x : Q;
    y : Q;
    vx : Q;
    vy : Q;
    radius : Q;
    color : option string
  }.
End Particle.

Module ChaosState.
Record t := mk {
    enabled : bool;
    electricPillars : list ElectricPillar.t;
    gammaRays : list GammaRay.t;
    gravityFlips : list GravityFlip.t;
    vortexes : list Vortex.t;
    particles : list Particle.t;
    schrodingerMode : bool;
    gravityMultiplier : Q;
    lastSpawnTime : Z
  }.
End ChaosState.

Module ChaosHazards.
Record t := mk {
    electricPillars : bool;
    gammaRays : bool;
    vortexes : bool;
    particles : bool;
    schrodingerPipes : bool
  }.
End ChaosHazards.

Module GameConfig.
Record t := mk {
    speed : Q;
    jumpHeight : Q;
    gravity : Q;
    physicsType : PhysicsType;
    pipeGap : Q;
    pipeSpacing : Q;
    pipeWidth : Q;
    chaosEnabled : bool;
    chaosHazards : ChaosHazards.t
  }.
End GameConfig.

(** [Partial<GameConfig>]: every property may be absent. *)
Module PartialConfig.
Record t := mk {
    speed : option Q;
    jumpHeight : option Q;
    gravity : option Q;
    physicsType : option PhysicsType;
    pipeGap : option Q;
    pipeSpacing : option Q;
    pipeWidth : option Q;
    chaosEnabled : option bool;
    chaosHazards : option ChaosHazards.t
  }.
End PartialConfig.

Inductive GameStatus := ready | playing | over.

Module GameState.
Record t := mk {
    bird : Bird.t;
    pipes : list Pipe.t;
    score : Z;
    bestScore : Z;
    status : GameStatus;
    config : GameConfig.t;
    blackHole : BlackHoleEffect.t;
    chaos : ChaosState.t
  }.
End GameState.

(** ** The world outside the state: globals and the random generator *)

Record World := mkWorld {
  draws : nat -> Q;     (* the values Math.random() will return, in order *)
  cursor : nat;         (* how many have been consumed *)
  frameCount : Z;       (* engine.ts: let frameCount = 0 *)
  idCounter : nat       (* chaos.ts: let idCounter = 0 *)
}.

Definition M (A : Type) : Type := World -> A * World.

Definition ret {A : Type} (a : A) : M A := fun w => (a, w).

Definition bind {A B : Type} (m : M A) (k : A -> M B) : M B :=
  fun w => let (a, w') := m w in k a w'.

Declare Scope monad_scope.
Delimit Scope monad_scope with monad.
Notation "x <- m ;; k" := (bind m (fun x => k))
  (at level 61, m at next level, right associativity) : monad_scope.
Notation "m ;;; k" := (bind m (fun _ => k))
  (at level 61, right associativity) : monad_scope.
Open Scope monad_scope.

Definition Math_random : M Q :=
  fun w => (draws w (cursor w),
            mkWorld (draws w) (S (cursor w)) (frameCount w) (idCounter w)).

Definition getFrameCount : M Z := fun w => (frameCount w, w).

Definition setFrameCount (n : Z) : M unit :=
  fun w => (tt, mkWorld (draws w) (cursor w) n (idCounter w)).

(** [`chaos-${++idCounter}`] *)
Definition generateId : M string :=
  fun w =>
    let n := S (idCounter w) in
    (("chaos-" ++ NilEmpty.string_of_uint (Nat.to_uint n))%string,
     mkWorld (draws w) (cursor w) (frameCount w) n).

(** ** game/physics.ts *)

Module JUMP_DURATION.
Definition linear : Q := 20.
Definition exponential : Q := 25.
Definition sine : Q := 25.
End JUMP_DURATION.

Section Game.

Context {host : HostMath}.

Definition applyGravity (velocity gravity : Q) (physicsType : PhysicsType)
    (jumpTime jumpHeight : Q) : Q :=
  match physicsType with
  | linear =>
      if (velocity <? 0) && (jumpTime <? JUMP_DURATION.linear)
      then velocity
      else velocity + gravity * 1.2
  | exponential =>
      if velocity <? 0 then
        let decayRate := 0.12 in
        let decayedVelocity := velocity * (1 - decayRate) in
        decayedVelocity + gravity * 0.5
      else velocity + gravity
  | sine =>
      if (jumpTime <? JUMP_DURATION.sine) && (velocity <? 0) then
        let t := jumpTime / JUMP_DURATION.sine in
        let sinePhase := t * Math_PI in
        let sineFactor := Math_cos sinePhase in
        let targetVelocity := - jumpHeight * Qmax 0 sineFactor * 0.7 in
        velocity * 0.8 + targetVelocity * 0.2 + gravity * 0.3
      else velocity + gravity
  | parabolic => velocity + gravity
  end.

Definition applyJump (jumpHeight : Q) (physicsType : PhysicsType) : Q :=
  match physicsType with
  | linear => - jumpHeight * 0.5
  | exponential => - jumpHeight * 1.8
  | sine => - jumpHeight * 0.9
  | parabolic => - jumpHeight
  end.

Definition updatePosition (y velocity : Q) : Q := y + velocity.

(** ** game/bird.ts *)

Definition createBird : Bird.t :=
  {| Bird.x := BIRD.x;
     Bird.y := BIRD.startY;
     Bird.velocity := 0;
     Bird.width := BIRD.width;
     Bird.height := BIRD.height;
     Bird.jumpTime := 0 |}.

Definition updateBird (bird : Bird.t) (gravity : Q) (physicsType : PhysicsType)
    (jumpHeight : Q) : Bird.t :=
  let newVelocity :=
    applyGravity (Bird.velocity bird) gravity physicsType
                 (Bird.jumpTime bird) jumpHeight in
  let newY := updatePosition (Bird.y bird) newVelocity in
  {| Bird.x := Bird.x bird;
     Bird.y := newY;
     Bird.velocity := newVelocity;
     Bird.width := Bird.width bird;
     Bird.height := Bird.height bird;
     Bird.jumpTime := Bird.jumpTime bird + 1 |}.

Definition jumpBird (bird : Bird.t) (jumpHeight : Q) (physicsType : PhysicsType)
    : Bird.t :=
  {| Bird.x := Bird.x bird;
     Bird.y := Bird.y bird;
     Bird.velocity := applyJump jumpHeight physicsType;
     Bird.width := Bird.width bird;
     Bird.height := Bird.height bird;
     Bird.jumpTime := 0 |}.

Definition isBirdOutOfBounds (bird : Bird.t) : bool :=
  let groundY := CANVAS.height - 80 in
  (Bird.y bird + Bird.height bird >? groundY) || (Bird.y bird <? 0).

(** ** game/pipes.ts *)

Definition MIN_PIPE_HEIGHT : Q := 80.
Definition GROUND_HEIGHT : Q := 80.

Definition createPipe (x gap : Q) : M Pipe.t :=
  let availableHeight :=
    CANVAS.height - GROUND_HEIGHT - gap - (MIN_PIPE_HEIGHT * 2) in
  r <- Math_random ;;
  let topHeight := MIN_PIPE_HEIGHT + r * availableHeight in
  ret {| Pipe.x := x;
         Pipe.topHeight := topHeight;
         Pipe.bottomY := topHeight + gap;
         Pipe.width := GAME_CONFIG.pipeWidth;
         Pipe.passed := false;
         Pipe.isGhost := None;
         Pipe.isRevealed := None;
         Pipe.isElectric := None;
         Pipe.electricActive := None;
         Pipe.electricCycleTime := None;
         Pipe.electricOnDuration := None;
         Pipe.electricOffDuration := None |}.

(** [{ ...pipe, x: v }] *)
Definition Pipe_with_x (pipe : Pipe.t) (v : Q) : Pipe.t :=
  {| Pipe.x := v;
     Pipe.topHeight := Pipe.topHeight pipe;
     Pipe.bottomY := Pipe.bottomY pipe;
     Pipe.width := Pipe.width pipe;
     Pipe.passed := Pipe.passed pipe;
     Pipe.isGhost := Pipe.isGhost pipe;
     Pipe.isRevealed := Pipe.isRevealed pipe;
     Pipe.isElectric := Pipe.isElectric pipe;
     Pipe.electricActive := Pipe.electricActive pipe;
     Pipe.electricCycleTime := Pipe.electricCycleTime pipe;
     Pipe.electricOnDuration := Pipe.electricOnDuration pipe;
     Pipe.electricOffDuration := Pipe.electricOffDuration pipe |}.

(** [{ ...pipe, passed: v }] *)
Definition Pipe_with_passed (pipe : Pipe.t) (v : bool) : Pipe.t :=
  {| Pipe.x := Pipe.x pipe;
     Pipe.topHeight := Pipe.topHeight pipe;
     Pipe.bottomY := Pipe.bottomY pipe;
     Pipe.width := Pipe.width pipe;
     Pipe.passed := v;
     Pipe.isGhost := Pipe.isGhost pipe;
     Pipe.isRevealed := Pipe.isRevealed pipe;
     Pipe.isElectric := Pipe.isElectric pipe;
     Pipe.electricActive := Pipe.electricActive pipe;
     Pipe.electricCycleTime := Pipe.electricCycleTime pipe;
     Pipe.electricOnDuration := Pipe.electricOnDuration pipe;
     Pipe.electricOffDuration := Pipe.electricOffDuration pipe |}.

Definition updatePipes (pipes : list Pipe.t) (speed : Q) : list Pipe.t :=
  filter (fun pipe => Pipe.x pipe + Pipe.width pipe >? -50)
         (map (fun pipe => Pipe_with_x pipe (Pipe.x pipe - speed)) pipes).

Definition shouldSpawnPipe (pipes : list Pipe.t) (pipeSpacing : Q) : bool :=
  match rev pipes with
  | [] => true
  | lastPipe :: _ => Pipe.x lastPipe <? CANVAS.width - pipeSpacing
  end.

Definition checkPipeCollision (bird : Bird.t) (pipe : Pipe.t) : bool :=
  let birdLeft := Bird.x bird in
  let birdRight := Bird.x bird + Bird.width bird in
  let birdTop := Bird.y bird in
  let birdBottom := Bird.y bird + Bird.height bird in
  let pipeLeft := Pipe.x pipe in
  let pipeRight := Pipe.x pipe + Pipe.width pipe in
  if (birdRight >? pipeLeft) && (birdLeft <? pipeRight) then
    if birdTop <? Pipe.topHeight pipe then true
    else if birdBottom >? Pipe.bottomY pipe then true
    else false
  else false.

Definition checkAnyCollision (bird : Bird.t) (pipes : list Pipe.t) : bool :=
  existsb (fun pipe => checkPipeCollision bird pipe) pipes.

(** The callback of [pipes.map] increments the captured counter [scored];
    the array is visited left to right, carrying the counter along. *)
Fixpoint countPassedPipes_from (bird : Bird.t) (pipes : list Pipe.t) (scored : Z)
    : list Pipe.t * Z :=
  match pipes with
  | [] => ([], scored)
  | pipe :: rest =>
      if negb (Pipe.passed pipe)
         && (Pipe.x pipe + Pipe.width pipe <? Bird.x bird)
      then
        let (updated, total) := countPassedPipes_from bird rest (scored + 1)%Z in
        (Pipe_with_passed pipe true :: updated, total)
      else
        let (updated, total) := countPassedPipes_from bird rest scored in
        (pipe :: updated, total)
  end.

Definition countPassedPipes (bird : Bird.t) (pipes : list Pipe.t)
    : list Pipe.t * Z :=
  countPassedPipes_from bird pipes 0%Z.

(** ** game/chaos.ts *)

Definition SPAWN_INTERVAL : Z := 400.
Definition SPAWN_CHANCE : Q := 0.3.

Definition createInitialChaos : ChaosState.t :=
  {| ChaosState.enabled := false;
     ChaosState.electricPillars := [];
     ChaosState.gammaRays := [];
     ChaosState.gravityFlips := [];
     ChaosState.vortexes := [];
     ChaosState.particles := [];
     ChaosState.schrodingerMode := false;
     ChaosState.gravityMultiplier := 1;
     ChaosState.lastSpawnTime := 0 |}.

Definition makeElectricPipe (pipe : Pipe.t) : Pipe.t :=
  {| Pipe.x := Pipe.x pipe;
     Pipe.topHeight := Pipe.topHeight pipe;
     Pipe.bottomY := Pipe.bottomY pipe;
     Pipe.width := Pipe.width pipe;
     Pipe.passed := Pipe.passed pipe;
     Pipe.isGhost := Pipe.isGhost pipe;
     Pipe.isRevealed := Pipe.isRevealed pipe;
     Pipe.isElectric := Some true;
     Pipe.electricActive := Some false;
     Pipe.electricCycleTime := Some 0%Z;
     Pipe.electricOnDuration := Some 50%Z;
     Pipe.electricOffDuration := Some 120%Z |}.

(** [cycleTime % cycleDuration < onDuration]; a zero [cycleDuration] makes
    the remainder [NaN], and every comparison with [NaN] is false. *)
Definition updateElectricPipe (pipe : Pipe.t) : Pipe.t :=
  if negb (truthy (Pipe.isElectric pipe)) then pipe
  else
    let cycleTime := (orDefault (Pipe.electricCycleTime pipe) 0 + 1)%Z in
    let onDuration := orDefault (Pipe.electricOnDuration pipe) 50 in
    let offDuration := orDefault (Pipe.electricOffDuration pipe) 120 in
    let cycleDuration := (onDuration + offDuration)%Z in
    let cyclePosition := Z.rem cycleTime cycleDuration in
    {| Pipe.x := Pipe.x pipe;
       Pipe.topHeight := Pipe.topHeight pipe;
       Pipe.bottomY := Pipe.bottomY pipe;
       Pipe.width := Pipe.width pipe;
       Pipe.passed := Pipe.passed pipe;
       Pipe.isGhost := Pipe.isGhost pipe;
       Pipe.isRevealed := Pipe.isRevealed pipe;
       Pipe.isElectric := Pipe.isElectric pipe;
       Pipe.electricActive :=
         Some (if (cycleDuration =? 0)%Z then false
               else (cyclePosition <? onDuration)%Z);
       Pipe.electricCycleTime := Some cycleTime;
       Pipe.electricOnDuration := Pipe.electricOnDuration pipe;
       Pipe.electricOffDuration := Pipe.electricOffDuration pipe |}.

Definition spawnGammaRay : M GammaRay.t :=
  id <- generateId ;;
  r <- Math_random ;;
  ret {| GammaRay.id := id;
         GammaRay.y := 100 + r * (CANVAS.height - 280);
         GammaRay.width := CANVAS.width;
         GammaRay.height := 15;
         GammaRay.warningTime := 240;
         GammaRay.activeTime := 30;
         GammaRay.state := warning;
         GammaRay.progress := 0 |}.

Definition spawnVortex : M Vortex.t :=
  id <- generateId ;;
  r <- Math_random ;;
  ret {| Vortex.id := id;
         Vortex.x := CANVAS.width + 50;
         Vortex.y := 150 + r * (CANVAS.height - 380);
         Vortex.radius := 60;
         Vortex.strength := 0.15;
         Vortex.rotation := 0 |}.

Definition spawnParticle : M Particle.t :=
  r0 <- Math_random ;;
  let fromLeft := r0 >? 0.5 in
  let colors := ["#00FFFF"; "#FF00FF"; "#FFFF00"; "#00FF00"; "#FF6600"]%string in
  id <- generateId ;;
  ry <- Math_random ;;
  rvx <- Math_random ;;
  rvy <- Math_random ;;
  rr <- Math_random ;;
  rc <- Math_random ;;
  ret {| Particle.id := id;
         Particle.x := if fromLeft then -20 else CANVAS.width + 20;
         Particle.y := 100 + ry * (CANVAS.height - 280);
         Particle.vx := (if fromLeft then 1 else -1) * (4 + rvx * 3);
         Particle.vy := (rvy - 0.5) * 2;
         Particle.radius := 4 + rr * 2;
         Particle.color :=
           index colors (Qfloor (rc * inject_Z (Z.of_nat (List.length colors)))) |}.

(** One gamma ray, one frame on; [None] is the [null] of a faded ray. *)
Definition updateGammaRay (ray : GammaRay.t) : option GammaRay.t :=
  let newProgress :=
    GammaRay.progress ray
    + 1 / (match GammaRay.state ray with
           | warning => GammaRay.warningTime ray
           | _ => GammaRay.activeTime ray
           end) in
  let keep (newState : RayState) (p : Q) :=
    Some {| GammaRay.id := GammaRay.id ray;
            GammaRay.y := GammaRay.y ray;
            GammaRay.width := GammaRay.width ray;
            GammaRay.height := GammaRay.height ray;
            GammaRay.warningTime := GammaRay.warningTime ray;
            GammaRay.activeTime := GammaRay.activeTime ray;
            GammaRay.state := newState;
            GammaRay.progress := p |} in
  if newProgress >=? 1 then
    match GammaRay.state ray with
    | warning => keep active 0
    | active => keep fading 0
    | fading => None
    end
  else keep (GammaRay.state ray) newProgress.

Definition updateGravityFlip (speed : Q) (flip : GravityFlip.t) : GravityFlip.t :=
  {| GravityFlip.id := GravityFlip.id flip;
     GravityFlip.x := GravityFlip.x flip - speed;
     GravityFlip.width := GravityFlip.width flip;
     GravityFlip.isActive :=
       GravityFlip.isActive flip && (GravityFlip.progress flip <? 1);
     GravityFlip.duration := GravityFlip.duration flip;
     GravityFlip.progress :=
       if GravityFlip.isActive flip
       then GravityFlip.progress flip + 1 / GravityFlip.duration flip
       else GravityFlip.progress flip |}.

Definition updateVortex (speed : Q) (v : Vortex.t) : Vortex.t :=
  {| Vortex.id := Vortex.id v;
     Vortex.x := Vortex.x v - speed * 0.5;
     Vortex.y := Vortex.y v;
     Vortex.radius := Vortex.radius v;
     Vortex.strength := Vortex.strength v;
     Vortex.rotation := Vortex.rotation v + 0.1 |}.

Definition updateParticle (p : Particle.t) : Particle.t :=
  {| Particle.id := Particle.id p;
     Particle.x := Particle.x p + Particle.vx p;
     Particle.y := Particle.y p + Particle.vy p;
     Particle.vx := Particle.vx p;
     Particle.vy := Particle.vy p;
     Particle.radius := Particle.radius p;
     Particle.color := Particle.color p |}.

(** The four entity lists and the multiplier after the update loops of
    [updateChaos], before anything is spawned. *)
Definition updatedGammaRays (chaos : ChaosState.t) : list GammaRay.t :=
  mapNotNull updateGammaRay (ChaosState.gammaRays chaos).

Definition updatedGravityFlips (chaos : ChaosState.t) (speed : Q)
    : list GravityFlip.t :=
  filter (fun f => GravityFlip.x f >? - GravityFlip.width f)
         (map (updateGravityFlip speed) (ChaosState.gravityFlips chaos)).

Definition multiplierOf (flips : list GravityFlip.t) : Q :=
  match find (fun f => GravityFlip.isActive f) flips with
  | Some activeFlip => -1
  | None => 1
  end.

Definition updatedVortexes (chaos : ChaosState.t) (speed : Q) : list Vortex.t :=
  filter (fun v => Vortex.x v >? - Vortex.radius v * 2)
         (map (updateVortex speed) (ChaosState.vortexes chaos)).

Definition updatedParticles (chaos : ChaosState.t) : list Particle.t :=
  filter (fun p => (Particle.x p >? -50) && (Particle.x p <? CANVAS.width + 50)
                   && (Particle.y p >? -50) && (Particle.y p <? CANVAS.height + 50))
         (map updateParticle (ChaosState.particles chaos)).

Definition enabledHazardsOf (hazards : ChaosHazards.t) : list string :=
  ((if ChaosHazards.gammaRays hazards then ["gamma"%string] else [])
   ++ (if ChaosHazards.vortexes hazards then ["vortex"%string] else [])
   ++ (if ChaosHazards.particles hazards then ["particles"%string] else []))%list.

(** The [switch (hazardType)] of [updateChaos]: what is pushed onto the
    entity lists; [None] is the [undefined] of an index outside
    [enabledHazards]. *)
Definition spawnHazard (hazardType : option string)
    (gammaRays : list GammaRay.t) (vortexes : list Vortex.t)
    (particles : list Particle.t)
    : M (list GammaRay.t * list Vortex.t * list Particle.t) :=
  match hazardType with
  | Some kind =>
      if (kind =? "gamma")%string then
        if (List.length gammaRays <? 1)%nat then
          ray <- spawnGammaRay ;;
          ret (gammaRays ++ [ray], vortexes, particles)
        else ret (gammaRays, vortexes, particles)
      else if (kind =? "vortex")%string then
        v <- spawnVortex ;;
        ret (gammaRays, vortexes ++ [v], particles)
      else if (kind =? "particles")%string then
        p1 <- spawnParticle ;;
        p2 <- spawnParticle ;;
        ret (gammaRays, vortexes, particles ++ [p1; p2])
      else ret (gammaRays, vortexes, particles)
  | None => ret (gammaRays, vortexes, particles)
  end.

Definition updateChaos (chaos : ChaosState.t) (speed : Q) (frameCount : Z)
    (hazards : ChaosHazards.t) : M ChaosState.t :=
  if negb (ChaosState.enabled chaos) then ret chaos
  else
    let gammaRays := updatedGammaRays chaos in
    let gravityFlips := updatedGravityFlips chaos speed in
    let gravityMultiplier := multiplierOf gravityFlips in
    let vortexes := updatedVortexes chaos speed in
    let particles := updatedParticles chaos in
    let enabledHazards := enabledHazardsOf hazards in
    let unspawned :=
      ret (gammaRays, vortexes, particles, ChaosState.lastSpawnTime chaos) in
    spawned <-
      (if (0 <? List.length enabledHazards)%nat
          && (frameCount - ChaosState.lastSpawnTime chaos >? SPAWN_INTERVAL)%Z
       then
         chance <- Math_random ;;
         if chance <? SPAWN_CHANCE then
           pick <- Math_random ;;
           let hazardType :=
             index enabledHazards
               (Qfloor (pick * inject_Z (Z.of_nat (List.length enabledHazards)))) in
           entities <- spawnHazard hazardType gammaRays vortexes particles ;;
           ret (entities, frameCount)
         else unspawned
       else unspawned) ;;
    let '(gammaRays, vortexes, particles, lastSpawnTime) := spawned in
    ret {| ChaosState.enabled := ChaosState.enabled chaos;
           ChaosState.electricPillars := [];
           ChaosState.gammaRays := gammaRays;
           ChaosState.gravityFlips := gravityFlips;
           ChaosState.vortexes := vortexes;
           ChaosState.particles := particles;
           ChaosState.schrodingerMode := ChaosHazards.schrodingerPipes hazards;
           ChaosState.gravityMultiplier := gravityMultiplier;
           ChaosState.lastSpawnTime := lastSpawnTime |}.

Definition checkElectricPipeCollision (bird : Bird.t) (pipes : list Pipe.t)
    : bool :=
  existsb
    (fun pipe =>
       truthy (Pipe.isElectric pipe) && truthy (Pipe.electricActive pipe)
       && (let birdRight := Bird.x bird + Bird.width bird in
           let birdLeft := Bird.x bird in
           (birdRight >? Pipe.x pipe) && (birdLeft <? Pipe.x pipe + Pipe.width pipe)
           && (let birdTop := Bird.y bird in
               let birdBottom := Bird.y bird + Bird.height bird in
               (birdTop >? Pipe.topHeight pipe)
               && (birdBottom <? Pipe.bottomY pipe))))
    pipes.

Definition checkChaosCollision (bird : Bird.t) (chaos : ChaosState.t) : bool :=
  if negb (ChaosState.enabled chaos) then false
  else
    existsb
      (fun ray =>
         match GammaRay.state ray with
         | active =>
             let birdTop := Bird.y bird in
             let birdBottom := Bird.y bird + Bird.height bird in
             (birdBottom >? GammaRay.y ray)
             && (birdTop <? GammaRay.y ray + GammaRay.height ray)
         | _ => false
         end)
      (ChaosState.gammaRays chaos)
    || existsb
         (fun particle =>
            let dx := Bird.x bird + Bird.width bird / 2 - Particle.x particle in
            let dy := Bird.y bird + Bird.height bird / 2 - Particle.y particle in
            let distance := Math_sqrt (dx * dx + dy * dy) in
            distance <? Particle.radius particle
                        + Qmin (Bird.width bird) (Bird.height bird) / 2)
         (ChaosState.particles chaos).

Definition applyVortexForce (bird : Bird.t) (chaos : ChaosState.t) : Q * Q :=
  if negb (ChaosState.enabled chaos) then (0, 0)
  else
    fold_left
      (fun (total : Q * Q) vortex =>
         let (totalVx, totalVy) := total in
         let dx := Vortex.x vortex - (Bird.x bird + Bird.width bird / 2) in
         let dy := Vortex.y vortex - (Bird.y bird + Bird.height bird / 2) in
         let distance := Math_sqrt (dx * dx + dy * dy) in
         if (distance <? Vortex.radius vortex) && (distance >? 10) then
           let force :=
             Vortex.strength vortex * (1 - distance / Vortex.radius vortex) in
           let totalVx := totalVx + (dx / distance) * force in
           let totalVy := totalVy + (dy / distance) * force in
           let tangentX := - dy / distance in
           let tangentY := dx / distance in
           (totalVx + tangentX * force * 0.5, totalVy + tangentY * force * 0.5)
         else (totalVx, totalVy))
      (ChaosState.vortexes chaos) (0, 0).

(** [{ ...chaos, gravityFlips: v }] *)
Definition ChaosState_with_gravityFlips (chaos : ChaosState.t)
    (v : list GravityFlip.t) : ChaosState.t :=
  {| ChaosState.enabled := ChaosState.enabled chaos;
     ChaosState.electricPillars := ChaosState.electricPillars chaos;
     ChaosState.gammaRays := ChaosState.gammaRays chaos;
     ChaosState.gravityFlips := v;
     ChaosState.vortexes := ChaosState.vortexes chaos;
     ChaosState.particles := ChaosState.particles chaos;
     ChaosState.schrodingerMode := ChaosState.schrodingerMode chaos;
     ChaosState.gravityMultiplier := ChaosState.gravityMultiplier chaos;
     ChaosState.lastSpawnTime := ChaosState.lastSpawnTime chaos |}.

Definition triggerGravityFlip (bird : Bird.t) (flip : GravityFlip.t)
    : GravityFlip.t :=
  if negb (GravityFlip.isActive flip)
     && (Bird.x bird >? GravityFlip.x flip)
     && (Bird.x bird <? GravityFlip.x flip + GravityFlip.width flip)
  then
    {| GravityFlip.id := GravityFlip.id flip;
       GravityFlip.x := GravityFlip.x flip;
       GravityFlip.width := GravityFlip.width flip;
       GravityFlip.isActive := true;
       GravityFlip.duration := GravityFlip.duration flip;
       GravityFlip.progress := 0 |}
  else flip.

Definition checkGravityFlipTrigger (bird : Bird.t) (chaos : ChaosState.t)
    : ChaosState.t :=
  if negb (ChaosState.enabled chaos) then chaos
  else
    let updatedFlips :=
      map (triggerGravityFlip bird) (ChaosState.gravityFlips chaos) in
    ChaosState_with_gravityFlips chaos updatedFlips.

(** [{ ...pipe, isGhost: g, isRevealed: r }] *)
Definition Pipe_with_ghost (pipe : Pipe.t) (g r : option bool) : Pipe.t :=
  {| Pipe.x := Pipe.x pipe;
     Pipe.topHeight := Pipe.topHeight pipe;
     Pipe.bottomY := Pipe.bottomY pipe;
     Pipe.width := Pipe.width pipe;
     Pipe.passed := Pipe.passed pipe;
     Pipe.isGhost := g;
     Pipe.isRevealed := r;
     Pipe.isElectric := Pipe.isElectric pipe;
     Pipe.electricActive := Pipe.electricActive pipe;
     Pipe.electricCycleTime := Pipe.electricCycleTime pipe;
     Pipe.electricOnDuration := Pipe.electricOnDuration pipe;
     Pipe.electricOffDuration := Pipe.electricOffDuration pipe |}.

Definition applySchrodingerEffect (pipe : Pipe.t) (chaos : ChaosState.t)
    : M Pipe.t :=
  if negb (ChaosState.enabled chaos) || negb (ChaosState.schrodingerMode chaos)
  then ret pipe
  else
    match Pipe.isGhost pipe with
    | None =>
        r <- Math_random ;;
        ret (Pipe_with_ghost pipe (Some (r >? 0.5)) (Some false))
    | Some _ => ret pipe
    end.

Definition revealSchrodingerPipe (pipe : Pipe.t) (bird : Bird.t) : Pipe.t :=
  match Pipe.isGhost pipe with
  | None => pipe
  | Some _ =>
      if truthy (Pipe.isRevealed pipe) then pipe
      else if Bird.x bird + Bird.width bird >? Pipe.x pipe - 50
      then Pipe_with_ghost pipe (Pipe.isGhost pipe) (Some true)
      else pipe
  end.

(** ** game/engine.ts *)

Definition BLACK_HOLE_DURATION : Q := 150.
Definition PULL_PHASE : Q := 0.4.
Definition STRETCH_PHASE : Q := 1.0.

Definition createInitialBlackHole : BlackHoleEffect.t :=
  {| BlackHoleEffect.active := false;
     BlackHoleEffect.progress := 0;
     BlackHoleEffect.phase := none;
     BlackHoleEffect.hasTriggeredThisGame := false;
     BlackHoleEffect.waitingToResume := Some false |}.

Definition getBlackHolePhase (progress : Q) : Phase :=
  if progress <? PULL_PHASE then pulling
  else if progress <? STRETCH_PHASE then stretching
  else none.

Definition createInitialState (bestScore : Z) : GameState.t :=
  {| GameState.bird := createBird;
     GameState.pipes := [];
     GameState.score := 0;
     GameState.bestScore := bestScore;
     GameState.status := ready;
     GameState.config :=
       {| GameConfig.speed := GAME_CONFIG.speed_default;
          GameConfig.jumpHeight := GAME_CONFIG.jumpHeight_default;
          GameConfig.gravity := GAME_CONFIG.gravity_default;
          GameConfig.physicsType := parabolic;
          GameConfig.pipeGap := GAME_CONFIG.pipeGap_default;
          GameConfig.pipeSpacing := GAME_CONFIG.pipeSpacing_default;
          GameConfig.pipeWidth := GAME_CONFIG.pipeWidth;
          GameConfig.chaosEnabled := false;
          GameConfig.chaosHazards :=
            {| ChaosHazards.electricPillars := true;
               ChaosHazards.gammaRays := true;
               ChaosHazards.vortexes := true;
               ChaosHazards.particles := true;
               ChaosHazards.schrodingerPipes := true |} |};
     GameState.blackHole := createInitialBlackHole;
     GameState.chaos := createInitialChaos |}.

(** [{ ...chaos, enabled: v }] *)
Definition ChaosState_with_enabled (chaos : ChaosState.t) (v : bool)
    : ChaosState.t :=
  {| ChaosState.enabled := v;
     ChaosState.electricPillars := ChaosState.electricPillars chaos;
     ChaosState.gammaRays := ChaosState.gammaRays chaos;
     ChaosState.gravityFlips := ChaosState.gravityFlips chaos;
     ChaosState.vortexes := ChaosState.vortexes chaos;
     ChaosState.particles := ChaosState.particles chaos;
     ChaosState.schrodingerMode := ChaosState.schrodingerMode chaos;
     ChaosState.gravityMultiplier := ChaosState.gravityMultiplier chaos;
     ChaosState.lastSpawnTime := ChaosState.lastSpawnTime chaos |}.

Definition startGame (state : GameState.t) : M GameState.t :=
  setFrameCount 0 ;;;
  ret {| GameState.bird :=
           jumpBird (GameState.bird state)
                    (GameConfig.jumpHeight (GameState.config state))
                    (GameConfig.physicsType (GameState.config state));
         GameState.pipes := GameState.pipes state;
         GameState.score := GameState.score state;
         GameState.bestScore := GameState.bestScore state;
         GameState.status := playing;
         GameState.config := GameState.config state;
         GameState.blackHole := GameState.blackHole state;
         GameState.chaos :=
           ChaosState_with_enabled createInitialChaos
             (GameConfig.chaosEnabled (GameState.config state)) |}.

Definition restartGame (state : GameState.t) : GameState.t :=
  let fresh := createInitialState (GameState.bestScore state) in
  {| GameState.bird := GameState.bird fresh;
     GameState.pipes := GameState.pipes fresh;
     GameState.score := GameState.score fresh;
     GameState.bestScore := GameState.bestScore fresh;
     GameState.status := GameState.status fresh;
     GameState.config := GameState.config state;
     GameState.blackHole := GameState.blackHole fresh;
     GameState.chaos := GameState.chaos fresh |}.

(** [{ ...state, bird: b, blackHole: h }] *)
Definition GameState_with_bird_blackHole (state : GameState.t) (b : Bird.t)
    (h : BlackHoleEffect.t) : GameState.t :=
  {| GameState.bird := b;
     GameState.pipes := GameState.pipes state;
     GameState.score := GameState.score state;
     GameState.bestScore := GameState.bestScore state;
     GameState.status := GameState.status state;
     GameState.config := GameState.config state;
     GameState.blackHole := h;
     GameState.chaos := GameState.chaos state |}.

Definition handleJump (state : GameState.t) : M GameState.t :=
  let jumped :=
    jumpBird (GameState.bird state)
             (GameConfig.jumpHeight (GameState.config state))
             (GameConfig.physicsType (GameState.config state)) in
  if BlackHoleEffect.active (GameState.blackHole state) then ret state
  else if truthy (BlackHoleEffect.waitingToResume (GameState.blackHole state))
  then
    ret (GameState_with_bird_blackHole state jumped
           {| BlackHoleEffect.active :=
                BlackHoleEffect.active (GameState.blackHole state);
              BlackHoleEffect.progress :=
                BlackHoleEffect.progress (GameState.blackHole state);
              BlackHoleEffect.phase :=
                BlackHoleEffect.phase (GameState.blackHole state);
              BlackHoleEffect.hasTriggeredThisGame :=
                BlackHoleEffect.hasTriggeredThisGame (GameState.blackHole state);
              BlackHoleEffect.waitingToResume := Some false |})
  else
    match GameState.status state with
    | ready => startGame state
    | playing =>
        ret (GameState_with_bird_blackHole state jumped
               (GameState.blackHole state))
    | over => startGame (restartGame state)
    end.

(** The black-hole branch of [updateGame] (engine.ts 141-182). *)
Definition animateBlackHole (state : GameState.t) : GameState.t :=
  let hole := GameState.blackHole state in
  let newProgress := BlackHoleEffect.progress hole + 1 / BLACK_HOLE_DURATION in
  if newProgress >=? 1 then
    {| GameState.bird :=
         {| Bird.x := 80;
            Bird.y := CANVAS.height / 2;
            Bird.velocity := 0;
            Bird.width := Bird.width (GameState.bird state);
            Bird.height := Bird.height (GameState.bird state);
            Bird.jumpTime := Bird.jumpTime (GameState.bird state) |};
       GameState.pipes := [];
       GameState.score := GameState.score state;
       GameState.bestScore := GameState.bestScore state;
       GameState.status := GameState.status state;
       GameState.config := GameState.config state;
       GameState.blackHole :=
         {| BlackHoleEffect.active := false;
            BlackHoleEffect.progress := 0;
            BlackHoleEffect.phase := none;
            BlackHoleEffect.hasTriggeredThisGame :=
              BlackHoleEffect.hasTriggeredThisGame hole;
            BlackHoleEffect.waitingToResume := Some true |};
       GameState.chaos :=
         {| ChaosState.enabled := ChaosState.enabled (GameState.chaos state);
            ChaosState.electricPillars := [];
            ChaosState.gammaRays := [];
            ChaosState.gravityFlips :=
              ChaosState.gravityFlips (GameState.chaos state);
            ChaosState.vortexes := [];
            ChaosState.particles := [];
            ChaosState.schrodingerMode :=
              ChaosState.schrodingerMode (GameState.chaos state);
            ChaosState.gravityMultiplier :=
              ChaosState.gravityMultiplier (GameState.chaos state);
            ChaosState.lastSpawnTime :=
              ChaosState.lastSpawnTime (GameState.chaos state) |} |}
  else
    GameState_with_bird_blackHole state (GameState.bird state)
      {| BlackHoleEffect.active := BlackHoleEffect.active hole;
         BlackHoleEffect.progress := newProgress;
         BlackHoleEffect.phase := getBlackHolePhase newProgress;
         BlackHoleEffect.hasTriggeredThisGame :=
           BlackHoleEffect.hasTriggeredThisGame hole;
         BlackHoleEffect.waitingToResume := BlackHoleEffect.waitingToResume hole |}.

(** The locals of [updateGame] once scoring is done (engine.ts 186-249). *)
Record Frame := mkFrame {
  newBird : Bird.t;
  newPipes : list Pipe.t;
  newChaos : ChaosState.t;
  scored : Z
}.

(** engine.ts 186-194: the hazard aggregate of this frame. *)
Definition frameChaos (state : GameState.t) : M ChaosState.t :=
  let config := GameState.config state in
  frameCount <- getFrameCount ;;
  newChaos <-
    (if GameConfig.chaosEnabled config
     then updateChaos (GameState.chaos state) (GameConfig.speed config)
                      frameCount (GameConfig.chaosHazards config)
     else ret (GameState.chaos state)) ;;
  ret (if GameConfig.chaosEnabled config
       then checkGravityFlipTrigger (GameState.bird state) newChaos
       else newChaos).

(** engine.ts 196-215: the bird of this frame. *)
Definition frameBird (state : GameState.t) (newChaos : ChaosState.t) : Bird.t :=
  let config := GameState.config state in
  let effectiveGravity :=
    GameConfig.gravity config * ChaosState.gravityMultiplier newChaos in
  let newBird :=
    updateBird (GameState.bird state) effectiveGravity
               (GameConfig.physicsType config) (GameConfig.jumpHeight config) in
  if GameConfig.chaosEnabled config then
    let (vx, vy) := applyVortexForce newBird newChaos in
    {| Bird.x := Qmax 20 (Qmin (Bird.x newBird + vx) 150);
       Bird.y := Bird.y newBird;
       Bird.velocity := Bird.velocity newBird + vy;
       Bird.width := Bird.width newBird;
       Bird.height := Bird.height newBird;
       Bird.jumpTime := Bird.jumpTime newBird |}
  else newBird.

(** engine.ts 217-245: the pipes of this frame, before scoring. *)
Definition framePipes (state : GameState.t) (newChaos : ChaosState.t)
    (newBird : Bird.t) : M (list Pipe.t) :=
  let config := GameState.config state in
  let chaosEnabled := GameConfig.chaosEnabled config in
  let electricPillars :=
    ChaosHazards.electricPillars (GameConfig.chaosHazards config) in
  let moved := updatePipes (GameState.pipes state) (GameConfig.speed config) in
  spawned <-
    (if shouldSpawnPipe moved (GameConfig.pipeSpacing config) then
       newPipe <- createPipe (CANVAS.width + 50) (GameConfig.pipeGap config) ;;
       newPipe <-
         (if chaosEnabled && ChaosState.schrodingerMode newChaos
          then applySchrodingerEffect newPipe newChaos
          else ret newPipe) ;;
       electric <-
         (if chaosEnabled && electricPillars
          then r <- Math_random ;; ret (r <? 0.4)
          else ret false) ;;
       ret (moved ++ [if electric then makeElectricPipe newPipe else newPipe])
     else ret moved) ;;
  let cycled :=
    if chaosEnabled && electricPillars then map updateElectricPipe spawned
    else spawned in
  ret (if chaosEnabled
       then map (fun pipe => revealSchrodingerPipe pipe newBird) cycled
       else cycled).

Definition playFrame (state : GameState.t) : M Frame :=
  newChaos <- frameChaos state ;;
  let newBird := frameBird state newChaos in
  newPipes <- framePipes state newChaos newBird ;;
  let (scoredPipes, scored) := countPassedPipes newBird newPipes in
  ret (mkFrame newBird scoredPipes newChaos scored).

(** [{ ...state, bird, pipes, score, bestScore, chaos, status, blackHole }] *)
Definition GameState_after (state : GameState.t) (f : Frame)
    (newScore newBestScore : Z) (status : GameStatus)
    (hole : BlackHoleEffect.t) : GameState.t :=
  {| GameState.bird := newBird f;
     GameState.pipes := newPipes f;
     GameState.score := newScore;
     GameState.bestScore := newBestScore;
     GameState.status := status;
     GameState.config := GameState.config state;
     GameState.blackHole := hole;
     GameState.chaos := newChaos f |}.

(** The record-break test of engine.ts 255-258. *)
Definition justBeatBestScore (state : GameState.t) (newScore : Z) : bool :=
  (newScore >? GameState.bestScore state)%Z
  && (GameState.bestScore state >? 0)%Z
  && negb (BlackHoleEffect.hasTriggeredThisGame (GameState.blackHole state)).

(** The pipes that take part in the pipe-collision test (engine.ts 278). *)
Definition realPipes (pipes : list Pipe.t) : list Pipe.t :=
  filter (fun p => negb (truthy (Pipe.isGhost p))
                   || negb (truthy (Pipe.isRevealed p))) pipes.

(** engine.ts 251-303: what [updateGame] returns for the frame's locals. *)
Definition resolveFrame (state : GameState.t) (f : Frame) : GameState.t :=
  let newScore := (GameState.score state + scored f)%Z in
  let newBestScore := Z.max newScore (GameState.bestScore state) in
  if justBeatBestScore state newScore then
    GameState_after state f newScore newBestScore (GameState.status state)
      {| BlackHoleEffect.active := true;
         BlackHoleEffect.progress := 0;
         BlackHoleEffect.phase := pulling;
         BlackHoleEffect.hasTriggeredThisGame := true;
         BlackHoleEffect.waitingToResume := None |}
  else
    let hitPipe := checkAnyCollision (newBird f) (realPipes (newPipes f)) in
    let hitBounds := isBirdOutOfBounds (newBird f) in
    let hitChaos := checkChaosCollision (newBird f) (newChaos f) in
    let hitElectric :=
      GameConfig.chaosEnabled (GameState.config state)
      && checkElectricPipeCollision (newBird f) (newPipes f) in
    if hitPipe || hitBounds || hitChaos || hitElectric then
      GameState_after state f newScore newBestScore over
        (GameState.blackHole state)
    else
      GameState_after state f newScore newBestScore (GameState.status state)
        (GameState.blackHole state).

Definition updateGame (state : GameState.t) : M GameState.t :=
  match GameState.status state with
  | playing =>
      if truthy (BlackHoleEffect.waitingToResume (GameState.blackHole state))
      then ret state
      else
        frameCount <- getFrameCount ;;
        setFrameCount (frameCount + 1) ;;;
        if BlackHoleEffect.active (GameState.blackHole state)
        then ret (animateBlackHole state)
        else
          f <- playFrame state ;;
          ret (resolveFrame state f)
  | _ => ret state
  end.

Definition mergeConfig (config : GameConfig.t) (updates : PartialConfig.t)
    : GameConfig.t :=
  let pick {A : Type} (o : option A) (d : A) : A :=
    match o with Some v => v | None => d end in
  {| GameConfig.speed :=
       pick (PartialConfig.speed updates) (GameConfig.speed config);
     GameConfig.jumpHeight :=
       pick (PartialConfig.jumpHeight updates) (GameConfig.jumpHeight config);
     GameConfig.gravity :=
       pick (PartialConfig.gravity updates) (GameConfig.gravity config);
     GameConfig.physicsType :=
       pick (PartialConfig.physicsType updates) (GameConfig.physicsType config);
     GameConfig.pipeGap :=
       pick (PartialConfig.pipeGap updates) (GameConfig.pipeGap config);
     GameConfig.pipeSpacing :=
       pick (PartialConfig.pipeSpacing updates) (GameConfig.pipeSpacing config);
     GameConfig.pipeWidth :=
       pick (PartialConfig.pipeWidth updates) (GameConfig.pipeWidth config);
     GameConfig.chaosEnabled :=
       pick (PartialConfig.chaosEnabled updates) (GameConfig.chaosEnabled config);
     GameConfig.chaosHazards :=
       pick (PartialConfig.chaosHazards updates) (GameConfig.chaosHazards config) |}.

Definition updateConfig (state : GameState.t) (updates : PartialConfig.t)
    : GameState.t :=
  let newConfig := mergeConfig (GameState.config state) updates in
  let newChaos :=
    ChaosState_with_enabled (GameState.chaos state)
                            (GameConfig.chaosEnabled newConfig) in
  {| GameState.bird := GameState.bird state;
     GameState.pipes := GameState.pipes state;
     GameState.score := GameState.score state;
     GameState.bestScore := GameState.bestScore state;
     GameState.status := GameState.status state;
     GameState.config := newConfig;
     GameState.blackHole := GameState.blackHole state;
     GameState.chaos := newChaos |}.

End Game.

(** * Vocabulary of the properties *)

(** The test of [countPassedPipes]: not yet passed, trailing edge strictly
    left of the bird's [x]. *)
Definition newlyPassed (bird : Bird.t) (pipe : Pipe.t) : bool :=
  negb (Pipe.passed pipe) && (Pipe.x pipe + Pipe.width pipe <? Bird.x bird).

(** What [countPassedPipes] does to one pipe. *)
Definition markPassed (bird : Bird.t) (pipe : Pipe.t) : Pipe.t :=
  if newlyPassed bird pipe then Pipe_with_passed pipe true else pipe.


(** No zone and the multiplier at [+1]. *)
Definition gravityQuiet (chaos : ChaosState.t) : Prop :=
  ChaosState.gravityFlips chaos = []
  /\ ChaosState.gravityMultiplier chaos = 1.


(** The bird's leading edge is within 50 units of the pipe's [x]. *)
Definition nearPipe (bird : Bird.t) (pipe : Pipe.t) : bool :=
  Bird.x bird + Bird.width bird >? Pipe.x pipe - 50.

(** A pipe that carries the superposition payload. *)
Definition inSuperposition (pipe : Pipe.t) : bool :=
  match Pipe.isGhost pipe with Some _ => true | None => false end.


(** [frameCount++] *)
Definition nextFrame (w : World) : World :=
  {| draws := draws w; cursor := cursor w;
     frameCount := (frameCount w + 1)%Z; idCounter := idCounter w |}.

(** A state in which [updateGame] plays a frame: the game is running and the
    black hole neither animates nor waits for the player. *)
Definition inPlay (state : GameState.t) : Prop :=
  GameState.status state = playing
  /\ truthy (BlackHoleEffect.waitingToResume (GameState.blackHole state)) = false
  /\ BlackHoleEffect.active (GameState.blackHole state) = false.

Section FrameLocals.

Context {host : HostMath}.

(** The locals of the frame that [updateGame] plays from [state] in world [w]. *)
Definition frameOf (state : GameState.t) (w : World) : Frame :=
  fst (playFrame state (nextFrame w)).

(** [newPipes] as it stands just before [countPassedPipes] is called. *)
Definition pipesBeforeScoring (state : GameState.t) (w : World) : list Pipe.t :=
  let (newChaos, w1) := frameChaos state (nextFrame w) in
  fst (framePipes state newChaos (frameBird state newChaos) w1).

(** [newScore] of the frame. *)
Definition scoreAfterScoring (state : GameState.t) (w : World) : Z :=
  (GameState.score state + scored (frameOf state w))%Z.

(** The hazard aggregate's flag agrees with the configuration's. *)
Definition synced (state : GameState.t) : Prop :=
  ChaosState.enabled (GameState.chaos state)
  = GameConfig.chaosEnabled (GameState.config state).

(** The states a session can be in: the initial state for some stored best
    score, then any sequence of the four commands the hook issues, with any
    world behind the effectful ones. *)
Inductive reachable : GameState.t -> Prop :=
| reach_initial (bestScore : Z) :
    reachable (createInitialState bestScore)
| reach_handleJump (state : GameState.t) (w : World) :
    reachable state -> reachable (fst (handleJump state w))
| reach_updateGame (state : GameState.t) (w : World) :
    reachable state -> reachable (fst (updateGame state w))
| reach_updateConfig (state : GameState.t) (updates : PartialConfig.t) :
    reachable state -> reachable (updateConfig state updates)
| reach_restartGame (state : GameState.t) :
    reachable state -> reachable (restartGame state).

End FrameLocals.

(** * Vocabulary of the further properties *)

(** A natural number as a JavaScript number. *)
Definition ofNat (n : nat) : Q := inject_Z (Z.of_nat n).

Section Flight.

Context {host : HostMath}.

(** [n] frames of [updateBird] with nothing else happening to the bird. *)
Definition fly (gravity : Q) (physicsType : PhysicsType) (jumpHeight : Q)
    (n : nat) (bird : Bird.t) : Bird.t :=
  Nat.iter n (fun b => updateBird b gravity physicsType jumpHeight) bird.

End Flight.

(** Where a pipe stands and where its gap is: the fields no modifier may
    touch. *)
Definition geometry (pipe : Pipe.t) : Q * Q * Q * Q :=
  (Pipe.x pipe, Pipe.topHeight pipe, Pipe.bottomY pipe, Pipe.width pipe).

(** The bird and the pipe share some horizontal span. *)
Definition alongside (bird : Bird.t) (pipe : Pipe.t) : Prop :=
  Pipe.x pipe < Bird.x bird + Bird.width bird
  /\ Bird.x bird < Pipe.x pipe + Pipe.width pipe.

(** [n] frames of [updatePipes] at a constant speed, nothing spawned. *)
Definition scroll (speed : Q) (n : nat) (pipes : list Pipe.t) : list Pipe.t :=
  Nat.iter n (fun l => updatePipes l speed) pipes.

(** The score never exceeds the best score, and is never negative. *)
Definition scoresInOrder (state : GameState.t) : Prop :=
  (0 <= GameState.score state <= GameState.bestScore state)%Z.

(** [{}] as a configuration update. *)
Definition noUpdate : PartialConfig.t :=
  {| PartialConfig.speed := None;
     PartialConfig.jumpHeight := None;
     PartialConfig.gravity := None;
     PartialConfig.physicsType := None;
     PartialConfig.pipeGap := None;
     PartialConfig.pipeSpacing := None;
     PartialConfig.pipeWidth := None;
     PartialConfig.chaosEnabled := None;
     PartialConfig.chaosHazards := None |}.

(** An effectful computation that leaves the frame counter alone. *)
Definition keepsFrame {A : Type} (m : M A) : Prop :=
  forall w, frameCount (snd (m w)) = frameCount w.

(** What a frame does to every pipe on screen after moving and spawning:
    the electric cycle and the reveal, as the configuration allows
    (engine.ts 237-245). *)
Definition finishPipe (config : GameConfig.t) (bird : Bird.t) (pipe : Pipe.t)
    : Pipe.t :=
  let cycled :=
    if GameConfig.chaosEnabled config
       && ChaosHazards.electricPillars (GameConfig.chaosHazards config)
    then updateElectricPipe pipe else pipe in
  if GameConfig.chaosEnabled config
  then revealSchrodingerPipe cycled bird else cycled.

(** At most one gamma ray, and no separate electric pillar. *)
Definition beamCapped (chaos : ChaosState.t) : Prop :=
  (List.length (ChaosState.gammaRays chaos) <= 1)%nat
  /\ ChaosState.electricPillars chaos = [].

(** The hazard aggregate after the update loops of [updateChaos] when
    nothing is spawned. *)
Definition unspawnedChaos (chaos : ChaosState.t) (speed : Q)
    (hazards : ChaosHazards.t) : ChaosState.t :=
  {| ChaosState.enabled := ChaosState.enabled chaos;
     ChaosState.electricPillars := [];
     ChaosState.gammaRays := updatedGammaRays chaos;
     ChaosState.gravityFlips := updatedGravityFlips chaos speed;
     ChaosState.vortexes := updatedVortexes chaos speed;
     ChaosState.particles := updatedParticles chaos;
     ChaosState.schrodingerMode := ChaosHazards.schrodingerPipes hazards;
     ChaosState.gravityMultiplier :=
       multiplierOf (updatedGravityFlips chaos speed);
     ChaosState.lastSpawnTime := ChaosState.lastSpawnTime chaos |}.






(** ** hooks/useGame.ts *)

Section Hook.

Context {host : HostMath}.

(** The updater the game loop hands to [setGameState] on every animation
    frame.  The second component is the argument of [saveBestScore] when the
    updater calls it, [None] when it does not. *)
Definition gameLoop (prev : GameState.t) : M (GameState.t * option Z) :=
  newState <- updateGame prev ;;
  ret (newState,
       match GameState.status newState with
       | over =>
           if (GameState.bestScore newState >? GameState.bestScore prev)%Z
           then Some (GameState.bestScore newState)
           else None
       | _ => None
       end).


End Hook.


(** Two states that differ at most in the progress and phase of the black
    hole. *)
Definition frozenAs (state other : GameState.t) : Prop :=
  GameState.bird other = GameState.bird state
  /\ GameState.pipes other = GameState.pipes state
  /\ GameState.score other = GameState.score state
  /\ GameState.bestScore other = GameState.bestScore state
  /\ GameState.config other = GameState.config state
  /\ GameState.chaos other = GameState.chaos state
  /\ BlackHoleEffect.hasTriggeredThisGame (GameState.blackHole other)
     = BlackHoleEffect.hasTriggeredThisGame (GameState.blackHole state).


(** How the black hole relates to the rest of the state. *)
Definition holeConsistent (state : GameState.t) : Prop :=
  let hole := GameState.blackHole state in
  (BlackHoleEffect.active hole = true ->
   GameState.status state = playing
   /\ BlackHoleEffect.hasTriggeredThisGame hole = true
   /\ truthy (BlackHoleEffect.waitingToResume hole) = false
   /\ BlackHoleEffect.phase hole <> none)
  /\ (BlackHoleEffect.active hole = false ->
      BlackHoleEffect.phase hole = none /\ BlackHoleEffect.progress hole = 0)
  /\ (truthy (BlackHoleEffect.waitingToResume hole) = true ->
      GameState.status state = playing
      /\ BlackHoleEffect.hasTriggeredThisGame hole = true
      /\ GameState.pipes state = []).

(** * Sample inputs

    Concrete values at which the properties below are evaluated.  None of
    the evaluations depends on what [Math_sqrt] and [Math_cos] return: the
    sample states use the parabolic curve, and the one that carries a vortex
    and a particle is only taken through the end of the animation, which
    does not look at them. *)

Definition sampleHost : HostMath :=
  {| Math_sqrt := fun x => x; Math_cos := fun _ => 1; Math_PI := 355 / 113 |}.

Definition sampleWorld : World :=
  {| draws := fun _ => 0.5; cursor := 0; frameCount := 0; idCounter := 0 |}.

(** A plain pipe at [x] with the given width, gap between 200 and 360. *)
Definition pipeAt (x width : Q) : Pipe.t :=
  {| Pipe.x := x;
     Pipe.topHeight := 200;
     Pipe.bottomY := 360;
     Pipe.width := width;
     Pipe.passed := false;
     Pipe.isGhost := None;
     Pipe.isRevealed := None;
     Pipe.isElectric := None;
     Pipe.electricActive := None;
     Pipe.electricCycleTime := None;
     Pipe.electricOnDuration := None;
     Pipe.electricOffDuration := None |}.

(** A game in progress: the initial state after the first impulse. *)
Definition playingState (bestScore : Z) : GameState.t :=
  fst (startGame (createInitialState bestScore) sampleWorld).

(** [{ ...state, blackHole: h }] *)
Definition withBlackHole (state : GameState.t) (h : BlackHoleEffect.t)
    : GameState.t :=
  GameState_with_bird_blackHole state (GameState.bird state) h.

(** The black hole in mid-animation. *)
Definition holeAt (progress : Q) : BlackHoleEffect.t :=
  {| BlackHoleEffect.active := true;
     BlackHoleEffect.progress := progress;
     BlackHoleEffect.phase := getBlackHolePhase progress;
     BlackHoleEffect.hasTriggeredThisGame := true;
     BlackHoleEffect.waitingToResume := None |}.

(** [{ ...state, bird, pipes, score }] *)
Definition withBirdPipesScore (state : GameState.t) (bird : Bird.t)
    (pipes : list Pipe.t) (score : Z) : GameState.t :=
  {| GameState.bird := bird;
     GameState.pipes := pipes;
     GameState.score := score;
     GameState.bestScore := GameState.bestScore state;
     GameState.status := GameState.status state;
     GameState.config := GameState.config state;
     GameState.blackHole := GameState.blackHole state;
     GameState.chaos := GameState.chaos state |}.

(** A game in progress whose only pipe clears the bird on the next frame:
    moved by the default speed 4 its trailing edge is at 66, left of the
    bird's [x = 80]. *)
Definition aboutToScore (bestScore score : Z) : GameState.t :=
  let state := playingState bestScore in
  withBirdPipesScore state (GameState.bird state) [pipeAt 10 60] score.

(** A bird below the ground line, level with the lower half of any pipe. *)
Definition fallenBird : Bird.t :=
  {| Bird.x := 80; Bird.y := 700; Bird.velocity := 0;
     Bird.width := 34; Bird.height := 28; Bird.jumpTime := 0 |}.

(** Score 4 against a best of 4, one pipe about to be cleared, and the bird
    out of bounds and inside the lower part of a second pipe. *)
Definition recordBreakState : GameState.t :=
  withBirdPipesScore (playingState 4) fallenBird
    [pipeAt 10 60; pipeAt 70 60] 4.


Definition withStatus (state : GameState.t) (st : GameStatus) : GameState.t :=
  {| GameState.bird := GameState.bird state;
     GameState.pipes := GameState.pipes state;
     GameState.score := GameState.score state;
     GameState.bestScore := GameState.bestScore state;
     GameState.status := st;
     GameState.config := GameState.config state;
     GameState.blackHole := GameState.blackHole state;
     GameState.chaos := GameState.chaos state |}.

(** An idle gravity-flip zone of width 100 at [x]. *)
Definition flipAt (x : Q) : GravityFlip.t :=
  {| GravityFlip.id := "flip"; GravityFlip.x := x; GravityFlip.width := 100;
     GravityFlip.isActive := false; GravityFlip.duration := 120;
     GravityFlip.progress := 0 |}.

(** A hazard aggregate with one entity of every spawned kind and one
    gravity-flip zone. *)
Definition crowdedChaos : ChaosState.t :=
  {| ChaosState.enabled := true;
     ChaosState.electricPillars := [];
     ChaosState.gammaRays :=
       [{| GammaRay.id := "chaos-1"; GammaRay.y := 500;
           GammaRay.width := CANVAS.width; GammaRay.height := 15;
           GammaRay.warningTime := 240; GammaRay.activeTime := 30;
           GammaRay.state := warning; GammaRay.progress := 0 |}];
     ChaosState.gravityFlips := [flipAt 300];
     ChaosState.vortexes :=
       [{| Vortex.id := "chaos-2"; Vortex.x := 400; Vortex.y := 150;
           Vortex.radius := 60; Vortex.strength := 0.15;
           Vortex.rotation := 0 |}];
     ChaosState.particles :=
       [{| Particle.id := "chaos-3"; Particle.x := 300; Particle.y := 100;
           Particle.vx := -4; Particle.vy := 0; Particle.radius := 4;
           Particle.color := Some "#00FFFF"%string |}];
     ChaosState.schrodingerMode := true;
     ChaosState.gravityMultiplier := 1;
     ChaosState.lastSpawnTime := 0 |}.


(** [{ chaosEnabled: b }] as a configuration update. *)
Definition setChaosEnabled (b : bool) : PartialConfig.t :=
  {| PartialConfig.speed := None;
     PartialConfig.jumpHeight := None;
     PartialConfig.gravity := None;
     PartialConfig.physicsType := None;
     PartialConfig.pipeGap := None;
     PartialConfig.pipeSpacing := None;
     PartialConfig.pipeWidth := None;
     PartialConfig.chaosEnabled := Some b;
     PartialConfig.chaosHazards := None |}.

(** A game in progress after the player switched chaos mode on. *)
Definition chaoticState : GameState.t :=
  updateConfig (playingState 0) (setChaosEnabled true).



(** A bird high on the screen, level with the upper half of any pipe. *)
Definition highBird : Bird.t :=
  {| Bird.x := 80; Bird.y := 100; Bird.velocity := 0;
     Bird.width := 34; Bird.height := 28; Bird.jumpTime := 0 |}.

(** A ghost pipe that has not been revealed. *)
Definition hiddenGhostAt (x width : Q) : Pipe.t :=
  Pipe_with_ghost (pipeAt x width) (Some true) (Some false).

(** Chaos mode switched off again while a hidden ghost is on screen, right
    where the bird flies. *)
Definition ghostAhead : GameState.t :=
  withBirdPipesScore (playingState 0) highBird [hiddenGhostAt 90 60] 0.



(** A bird whose top edge touches the upper edge of the sample pipes' gap. *)
Definition grazingBird : Bird.t :=
  {| Bird.x := 80; Bird.y := 200; Bird.velocity := 0;
     Bird.width := 34; Bird.height := 28; Bird.jumpTime := 0 |}.

(** An electrified pipe with the current on. *)
Definition livePipeAt (x width : Q) : Pipe.t :=
  {| Pipe.x := x;
     Pipe.topHeight := 200;
     Pipe.bottomY := 360;
     Pipe.width := width;
     Pipe.passed := false;
     Pipe.isGhost := None;
     Pipe.isRevealed := None;
     Pipe.isElectric := Some true;
     Pipe.electricActive := Some true;
     Pipe.electricCycleTime := Some 10%Z;
     Pipe.electricOnDuration := Some 50%Z;
     Pipe.electricOffDuration := Some 120%Z |}.



(** * Properties *)

(** ** Comparisons on rationals *)

Lemma Qltb_lt (a b : Q) : (a <? b) = true <-> a < b.
Proof.
  unfold Qltb. rewrite negb_true_iff. split.
  - intros H. apply Qnot_le_lt. intros Hle.
    apply Qle_bool_iff in Hle. congruence.
  - intros H. destruct (Qle_bool b a) eqn:E; [|reflexivity].
    apply Qle_bool_iff in E. exfalso. now apply (Qlt_not_le a b).
Qed.

Lemma Qltb_ge (a b : Q) : (a <? b) = false <-> b <= a.
Proof.
  unfold Qltb. rewrite negb_false_iff. apply Qle_bool_iff.
Qed.

Lemma Qgtb_gt (a b : Q) : (a >? b) = true <-> b < a.
Proof. apply Qltb_lt. Qed.

Lemma Qgtb_le (a b : Q) : (a >? b) = false <-> a <= b.
Proof. apply Qltb_ge. Qed.


Section Properties.

Context {host : HostMath}.

(** ** The impulse command during the animation *)

(** C10. While the black hole is active, [handleJump] is the identity: the
    state comes back unchanged, whatever its status, and so do the frame
    counter and the rest of the world. *)
Theorem handleJump_ignored_while_active (state : GameState.t) (w : World) :
  BlackHoleEffect.active (GameState.blackHole state) = true ->
  handleJump state w = (state, w).
Proof.
  intros Hactive. unfold handleJump. now rewrite Hactive.
Qed.

(** ** Electrified pipes *)

(** What [n] rounds of [updateElectricPipe] leave in the cycle fields of a
    pipe made electric. *)
Lemma electric_fields_after (pipe : Pipe.t) (n : nat) :
  let p := Nat.iter n updateElectricPipe (makeElectricPipe pipe) in
  Pipe.isElectric p = Some true
  /\ Pipe.electricCycleTime p = Some (Z.of_nat n)
  /\ Pipe.electricOnDuration p = Some 50%Z
  /\ Pipe.electricOffDuration p = Some 120%Z.
Proof.
  induction n as [|n IH]; [now cbn|].
  cbn zeta in *. rewrite Nat.iter_succ.
  destruct IH as (He & Hc & Hon & Hoff).
  set (p := Nat.iter n updateElectricPipe (makeElectricPipe pipe)) in *.
  unfold updateElectricPipe. rewrite He, Hc, Hon, Hoff. cbn [truthy negb].
  cbn [Pipe.isElectric Pipe.electricCycleTime Pipe.electricOnDuration
       Pipe.electricOffDuration].
  repeat split. f_equal.
  assert (orDefault (Some (Z.of_nat n)) 0 = Z.of_nat n) as ->
    by (unfold orDefault; destruct (Z.of_nat n); reflexivity).
  lia.
Qed.

(** C7. A pipe made electric starts with the current off, and after [n + 1]
    rounds of [updateElectricPipe] the current is on exactly when
    [(n + 1) mod 170 < 50]: on for cycle positions 0..49, off for 50..169,
    with period 170. *)
Theorem electric_duty_cycle (pipe : Pipe.t) :
  Pipe.electricActive (makeElectricPipe pipe) = Some false
  /\ Pipe.electricOnDuration (makeElectricPipe pipe) = Some 50%Z
  /\ Pipe.electricOffDuration (makeElectricPipe pipe) = Some 120%Z
  /\ forall n : nat,
       Pipe.electricActive
         (Nat.iter (S n) updateElectricPipe (makeElectricPipe pipe))
       = Some (S n mod 170 <? 50)%nat.
Proof.
  repeat split. intros n. rewrite Nat.iter_succ.
  destruct (electric_fields_after pipe n) as (He & Hc & Hon & Hoff).
  cbn zeta in *.
  set (p := Nat.iter n updateElectricPipe (makeElectricPipe pipe)) in *.
  unfold updateElectricPipe. rewrite He, Hc, Hon, Hoff.
  cbn [truthy negb Pipe.electricActive]. f_equal.
  assert (orDefault (Some (Z.of_nat n)) 0 = Z.of_nat n) as ->
    by (unfold orDefault; destruct (Z.of_nat n); reflexivity).
  change (orDefault (Some 50%Z) 50) with 50%Z.
  change (orDefault (Some 120%Z) 120) with 120%Z.
  change (50 + 120)%Z with 170%Z. change (170 =? 0)%Z with false. cbv iota.
  rewrite Z.rem_mod_nonneg by lia.
  assert (Hmod : ((Z.of_nat n + 1) mod 170)%Z = Z.of_nat (S n mod 170)).
  { rewrite Nat2Z.inj_mod. f_equal. lia. }
  rewrite Hmod.
  destruct (Nat.ltb_spec (S n mod 170) 50) as [Hlt|Hge].
  - apply Z.ltb_lt. lia.
  - apply Z.ltb_ge. lia.
Qed.

(** ** Moving and culling pipes *)

(** C8, as the code has it. [updatePipes] moves every pipe left by [speed]
    and keeps a moved pipe exactly when its trailing edge is strictly right
    of [-50]; the order of the survivors is that of the input.  Any pipe
    that enters at [x = -110] with width 60 is dropped for every speed that
    is not negative, and any pipe that enters at [x = -100] with width 60
    is kept when the speed is below 10 and dropped otherwise. *)
Theorem updatePipes_cull (pipes : list Pipe.t) (speed : Q) :
  updatePipes pipes speed
  = filter (fun moved => Pipe.x moved + Pipe.width moved >? -50)
      (map (fun pipe => Pipe_with_x pipe (Pipe.x pipe - speed)) pipes)
  /\ (forall moved,
        In moved (updatePipes pipes speed) <->
        exists pipe, In pipe pipes
                     /\ moved = Pipe_with_x pipe (Pipe.x pipe - speed)
                     /\ -50 < Pipe.x pipe - speed + Pipe.width pipe)
  /\ (forall pipe : Pipe.t,
        Pipe.width pipe == 60 ->
        (Pipe.x pipe == -110 -> 0 <= speed -> updatePipes [pipe] speed = [])
        /\ (Pipe.x pipe == -100 -> speed < 10 ->
            updatePipes [pipe] speed = [Pipe_with_x pipe (Pipe.x pipe - speed)])
        /\ (Pipe.x pipe == -100 -> 10 <= speed -> updatePipes [pipe] speed = [])).
Proof.
  split; [reflexivity|]. split.
  - intros moved. unfold updatePipes. rewrite filter_In, in_map_iff. split.
    + intros [[pipe [Heq Hin]] Hkeep]. exists pipe. subst moved.
      apply Qgtb_gt in Hkeep. cbn in Hkeep. auto.
    + intros [pipe (Hin & Heq & Hkeep)]. subst moved. split.
      * exists pipe. auto.
      * apply Qgtb_gt. cbn. exact Hkeep.
  - intros pipe Hwidth. unfold updatePipes. cbn [map filter].
    cbn [Pipe_with_x Pipe.x Pipe.width]. repeat split; intros Hx Hspeed.
    + replace (_ >? -50) with false; [reflexivity|].
      symmetry. apply Qgtb_le. lra.
    + replace (_ >? -50) with true; [reflexivity|].
      symmetry. apply Qgtb_gt. lra.
    + replace (_ >? -50) with false; [reflexivity|].
      symmetry. apply Qgtb_le. lra.
Qed.

(** ** Scoring *)

Lemma countPassedPipes_from_spec (bird : Bird.t) (pipes : list Pipe.t) :
  forall scored : Z,
    countPassedPipes_from bird pipes scored
    = (map (markPassed bird) pipes,
       (scored + Z.of_nat (List.length (filter (newlyPassed bird) pipes)))%Z).
Proof.
  induction pipes as [|pipe rest IH]; intros scored; cbn [countPassedPipes_from].
  - cbn. f_equal. lia.
  - cbn [map filter]. unfold markPassed at 1. fold (newlyPassed bird pipe).
    destruct (newlyPassed bird pipe); rewrite IH; cbn [List.length];
      f_equal; lia.
Qed.



(** ** One frame of play *)

Lemma updateGame_inPlay (state : GameState.t) (w : World) :
  inPlay state ->
  updateGame state w
  = (resolveFrame state (frameOf state w), snd (playFrame state (nextFrame w))).
Proof.
  intros (Hstatus & Hwait & Hactive).
  unfold updateGame, frameOf. rewrite Hstatus, Hwait, Hactive.
  unfold bind, ret, getFrameCount, setFrameCount. cbn [fst snd].
  fold (nextFrame w). now destruct (playFrame state (nextFrame w)).
Qed.

(** The three ways a tick can go: nothing happens, the animation advances,
    or a frame is played. *)
Lemma updateGame_cases (state : GameState.t) (w : World) :
  updateGame state w = (state, w)
  \/ (BlackHoleEffect.active (GameState.blackHole state) = true
      /\ updateGame state w = (animateBlackHole state, nextFrame w))
  \/ (inPlay state
      /\ updateGame state w
         = (resolveFrame state (frameOf state w),
            snd (playFrame state (nextFrame w)))).
Proof.
  destruct (GameState.status state) eqn:Hstatus;
    try (left; unfold updateGame; now rewrite Hstatus).
  destruct (truthy (BlackHoleEffect.waitingToResume (GameState.blackHole state)))
    eqn:Hwait; [left; unfold updateGame; now rewrite Hstatus, Hwait|].
  destruct (BlackHoleEffect.active (GameState.blackHole state)) eqn:Hactive.
  - right. left. split; [reflexivity|].
    unfold updateGame. now rewrite Hstatus, Hwait, Hactive.
  - right. right. assert (Hplay : inPlay state) by now repeat split.
    split; [exact Hplay|]. now apply updateGame_inPlay.
Qed.

Ltac tick_cases state w :=
  let Hactive := fresh "Hactive" in
  let Hplay := fresh "Hplay" in
  destruct (updateGame_cases state w)
    as [-> | [[Hactive ->] | [Hplay ->]]]; cbn [fst].

Ltac resolve_cases :=
  unfold resolveFrame;
  destruct (justBeatBestScore _ _); [reflexivity|];
  now destruct (_ || _).

Lemma frameOf_locals (state : GameState.t) (w : World) :
  let newChaos := fst (frameChaos state (nextFrame w)) in
  let newBird := frameBird state newChaos in
  let before := pipesBeforeScoring state w in
  frameOf state w
  = mkFrame newBird (map (markPassed newBird) before) newChaos
      (Z.of_nat (List.length (filter (newlyPassed newBird) before))).
Proof.
  cbn zeta. unfold frameOf, pipesBeforeScoring, playFrame, bind, ret.
  destruct (frameChaos state (nextFrame w)) as [newChaos w1]. cbn [fst].
  destruct (framePipes state newChaos (frameBird state newChaos) w1)
    as [before w2]. cbn [fst].
  unfold countPassedPipes. rewrite countPassedPipes_from_spec. reflexivity.
Qed.

Lemma resolveFrame_score (state : GameState.t) (f : Frame) :
  GameState.score (resolveFrame state f)
  = (GameState.score state + scored f)%Z.
Proof. resolve_cases. Qed.

Lemma resolveFrame_pipes (state : GameState.t) (f : Frame) :
  GameState.pipes (resolveFrame state f) = newPipes f.
Proof. resolve_cases. Qed.

Lemma resolveFrame_bird (state : GameState.t) (f : Frame) :
  GameState.bird (resolveFrame state f) = newBird f.
Proof. resolve_cases. Qed.

Lemma resolveFrame_chaos (state : GameState.t) (f : Frame) :
  GameState.chaos (resolveFrame state f) = newChaos f.
Proof. resolve_cases. Qed.

Lemma resolveFrame_config (state : GameState.t) (f : Frame) :
  GameState.config (resolveFrame state f) = GameState.config state.
Proof. resolve_cases. Qed.






(** ** The record-break event *)

Lemma resolveFrame_triggered (state : GameState.t) (f : Frame) :
  BlackHoleEffect.hasTriggeredThisGame (GameState.blackHole state) = true ->
  GameState.blackHole (resolveFrame state f) = GameState.blackHole state.
Proof.
  intros Hdone. unfold resolveFrame, justBeatBestScore. rewrite Hdone.
  rewrite andb_false_r. now destruct (_ || _).
Qed.

Lemma animateBlackHole_triggered (state : GameState.t) :
  BlackHoleEffect.hasTriggeredThisGame
    (GameState.blackHole (animateBlackHole state))
  = BlackHoleEffect.hasTriggeredThisGame (GameState.blackHole state).
Proof. unfold animateBlackHole. now destruct (_ >=? 1). Qed.

(** Once the event has fired, a tick keeps the flag and cannot start the
    animation again. *)
Lemma updateGame_fires_once (state : GameState.t) (w : World) :
  BlackHoleEffect.hasTriggeredThisGame (GameState.blackHole state) = true ->
  let after := fst (updateGame state w) in
  BlackHoleEffect.hasTriggeredThisGame (GameState.blackHole after) = true
  /\ (BlackHoleEffect.active (GameState.blackHole state) = false ->
      BlackHoleEffect.active (GameState.blackHole after) = false).
Proof.
  intros Hdone. cbn zeta. tick_cases state w.
  - auto.
  - rewrite animateBlackHole_triggered. split; [exact Hdone|congruence].
  - rewrite (resolveFrame_triggered _ _ Hdone). auto.
Qed.

(** The impulse command keeps the flag as long as it does not restart a
    finished game, and never starts the animation. *)
Lemma handleJump_fires_never (state : GameState.t) (w : World) :
  let after := fst (handleJump state w) in
  (GameState.status state <> over ->
   BlackHoleEffect.hasTriggeredThisGame (GameState.blackHole after)
   = BlackHoleEffect.hasTriggeredThisGame (GameState.blackHole state))
  /\ (BlackHoleEffect.active (GameState.blackHole state) = false ->
      BlackHoleEffect.active (GameState.blackHole after) = false).
Proof.
  cbn zeta. unfold handleJump.
  destruct (BlackHoleEffect.active (GameState.blackHole state)) eqn:Hactive.
  - cbn [ret fst]. split; [reflexivity|discriminate].
  - destruct (truthy _); cbn [ret fst GameState_with_bird_blackHole
                              GameState.blackHole BlackHoleEffect.active
                              BlackHoleEffect.hasTriggeredThisGame]; auto.
    destruct (GameState.status state); cbn; auto.
    split; [congruence|reflexivity].
Qed.

(** C1. In a frame of play, when the score after the scoring step exceeds
    the previous best, that best is positive and the event has not fired in
    this game, [updateGame] starts the black hole ([active], [pulling],
    progress 0, [hasTriggeredThisGame]) and returns at once: the status is
    still [playing] whatever the bird overlaps, and the frame's bird, pipes,
    score and hazards are kept.  Once the flag is set no tick, impulse or
    configuration update of the same game starts the event again. *)
Theorem record_break_starts_black_hole (state : GameState.t) (w : World) :
  inPlay state ->
  (GameState.bestScore state < scoreAfterScoring state w)%Z ->
  (0 < GameState.bestScore state)%Z ->
  BlackHoleEffect.hasTriggeredThisGame (GameState.blackHole state) = false ->
  let after := fst (updateGame state w) in
  BlackHoleEffect.active (GameState.blackHole after) = true
  /\ BlackHoleEffect.phase (GameState.blackHole after) = pulling
  /\ BlackHoleEffect.progress (GameState.blackHole after) = 0
  /\ BlackHoleEffect.hasTriggeredThisGame (GameState.blackHole after) = true
  /\ GameState.status after = playing
  /\ GameState.score after = scoreAfterScoring state w
  /\ GameState.bestScore after = scoreAfterScoring state w
  /\ (forall (later : GameState.t) (w' : World) (updates : PartialConfig.t),
        BlackHoleEffect.hasTriggeredThisGame (GameState.blackHole later) = true ->
        let tick := fst (updateGame later w') in
        let jump := fst (handleJump later w') in
        let conf := updateConfig later updates in
        BlackHoleEffect.hasTriggeredThisGame (GameState.blackHole tick) = true
        /\ BlackHoleEffect.hasTriggeredThisGame (GameState.blackHole conf) = true
        /\ (GameState.status later <> over ->
            BlackHoleEffect.hasTriggeredThisGame (GameState.blackHole jump)
            = true)
        /\ (BlackHoleEffect.active (GameState.blackHole later) = false ->
            BlackHoleEffect.active (GameState.blackHole tick) = false
            /\ BlackHoleEffect.active (GameState.blackHole jump) = false
            /\ BlackHoleEffect.active (GameState.blackHole conf) = false)).
Proof.
  intros Hplay Hbeat Hbest Hfresh. cbn zeta.
  rewrite (updateGame_inPlay _ _ Hplay). cbn [fst].
  destruct Hplay as (Hstatus & _ & _).
  unfold scoreAfterScoring in *. unfold resolveFrame, justBeatBestScore.
  rewrite Hfresh.
  replace (_ >? _)%Z with true by (symmetry; apply Z.gtb_lt; exact Hbeat).
  replace (_ >? 0)%Z with true by (symmetry; apply Z.gtb_lt; exact Hbest).
  cbn [andb negb GameState_after GameState.blackHole GameState.status
       GameState.score GameState.bestScore BlackHoleEffect.active
       BlackHoleEffect.phase BlackHoleEffect.progress
       BlackHoleEffect.hasTriggeredThisGame].
  repeat (split; [first [reflexivity | exact Hstatus | lia]|]).
  intros later w' updates Hdone.
  destruct (updateGame_fires_once later w' Hdone) as [Hkeep Hquiet].
  destruct (handleJump_fires_never later w') as [Hjump Hcalm].
  split; [exact Hkeep|]. split; [exact Hdone|]. split.
  - intros Hnot. now rewrite (Hjump Hnot).
  - intros Hidle. auto.
Qed.

(** ** The end of the animation and the wait for the player *)


(** ** The hazard aggregate inside a frame *)

Lemma updateChaos_disabled (chaos : ChaosState.t) (speed : Q) (frame : Z)
    (hazards : ChaosHazards.t) (w : World) :
  ChaosState.enabled chaos = false ->
  updateChaos chaos speed frame hazards w = (chaos, w).
Proof. intros Hoff. unfold updateChaos. now rewrite Hoff. Qed.

(** With hazards on, [updateChaos] rebuilds the aggregate; only the three
    spawned lists and the spawn time depend on the random draws. *)
Lemma updateChaos_shape (chaos : ChaosState.t) (speed : Q) (frame : Z)
    (hazards : ChaosHazards.t) (w : World) :
  ChaosState.enabled chaos = true ->
  exists rays vortexes particles lastSpawn w',
    updateChaos chaos speed frame hazards w
    = ({| ChaosState.enabled := true;
          ChaosState.electricPillars := [];
          ChaosState.gammaRays := rays;
          ChaosState.gravityFlips := updatedGravityFlips chaos speed;
          ChaosState.vortexes := vortexes;
          ChaosState.particles := particles;
          ChaosState.schrodingerMode := ChaosHazards.schrodingerPipes hazards;
          ChaosState.gravityMultiplier :=
            multiplierOf (updatedGravityFlips chaos speed);
          ChaosState.lastSpawnTime := lastSpawn |}, w').
Proof.
  intros Hon. unfold updateChaos. rewrite Hon. cbn [negb].
  unfold bind at 1.
  match goal with
  | |- context [let (_, _) := ?m in _] =>
      destruct m as [[[[rays vortexes] particles] lastSpawn] w']
  end.
  now exists rays, vortexes, particles, lastSpawn, w'.
Qed.

Lemma updateChaos_enabled (chaos : ChaosState.t) (speed : Q) (frame : Z)
    (hazards : ChaosHazards.t) (w : World) :
  ChaosState.enabled chaos = true ->
  let updated := fst (updateChaos chaos speed frame hazards w) in
  ChaosState.enabled updated = true
  /\ ChaosState.electricPillars updated = []
  /\ ChaosState.gravityFlips updated = updatedGravityFlips chaos speed
  /\ ChaosState.gravityMultiplier updated
     = multiplierOf (updatedGravityFlips chaos speed)
  /\ ChaosState.schrodingerMode updated = ChaosHazards.schrodingerPipes hazards.
Proof.
  intros Hon. cbn zeta.
  destruct (updateChaos_shape chaos speed frame hazards w Hon)
    as (rays & vortexes & particles & lastSpawn & w' & ->).
  repeat split.
Qed.

Lemma checkGravityFlipTrigger_fields (bird : Bird.t) (chaos : ChaosState.t) :
  let after := checkGravityFlipTrigger bird chaos in
  ChaosState.enabled after = ChaosState.enabled chaos
  /\ ChaosState.gravityMultiplier after = ChaosState.gravityMultiplier chaos
  /\ ChaosState.schrodingerMode after = ChaosState.schrodingerMode chaos
  /\ ChaosState.gravityFlips after
     = if ChaosState.enabled chaos
       then map (triggerGravityFlip bird) (ChaosState.gravityFlips chaos)
       else ChaosState.gravityFlips chaos.
Proof.
  cbn zeta. unfold checkGravityFlipTrigger.
  destruct (ChaosState.enabled chaos) eqn:Hon; cbn; rewrite ?Hon; repeat split.
Qed.

(** What a frame does to the gravity part of the hazard aggregate: nothing
    unless both the configuration and the aggregate have hazards on. *)
Lemma frameChaos_gravity (state : GameState.t) (w : World) :
  let chaos := GameState.chaos state in
  let running :=
    GameConfig.chaosEnabled (GameState.config state) && ChaosState.enabled chaos in
  let speed := GameConfig.speed (GameState.config state) in
  let after := fst (frameChaos state w) in
  ChaosState.enabled after = ChaosState.enabled chaos
  /\ ChaosState.gravityMultiplier after
     = (if running then multiplierOf (updatedGravityFlips chaos speed)
        else ChaosState.gravityMultiplier chaos)
  /\ ChaosState.gravityFlips after
     = (if running
        then map (triggerGravityFlip (GameState.bird state))
                 (updatedGravityFlips chaos speed)
        else ChaosState.gravityFlips chaos).
Proof.
  cbn zeta. unfold frameChaos, bind, ret, getFrameCount.
  destruct (GameConfig.chaosEnabled (GameState.config state)); cbn [andb fst];
    [|repeat split].
  destruct (ChaosState.enabled (GameState.chaos state)) eqn:Hon.
  - pose proof (updateChaos_enabled (GameState.chaos state)
                  (GameConfig.speed (GameState.config state)) (frameCount w)
                  (GameConfig.chaosHazards (GameState.config state)) w Hon)
      as (Hen & _ & Hflips & Hmult & _).
    cbn zeta in *.
    destruct (updateChaos _ _ _ _ w) as [updated w']. cbn [fst] in *.
    destruct (checkGravityFlipTrigger_fields (GameState.bird state) updated)
      as (Ha & Hb & _ & Hc).
    cbn zeta in *. rewrite Ha, Hb, Hc, Hen, Hflips, Hmult. repeat split.
  - rewrite updateChaos_disabled by exact Hon. cbn [fst].
    unfold checkGravityFlipTrigger. rewrite Hon. cbn [negb]. rewrite Hon.
    repeat split.
Qed.

Lemma frameOf_chaos (state : GameState.t) (w : World) :
  newChaos (frameOf state w) = fst (frameChaos state (nextFrame w)).
Proof.
  pose proof (frameOf_locals state w) as Hf. cbn zeta in Hf. now rewrite Hf.
Qed.

Lemma animateBlackHole_gravity (state : GameState.t) :
  let after := animateBlackHole state in
  ChaosState.enabled (GameState.chaos after)
  = ChaosState.enabled (GameState.chaos state)
  /\ ChaosState.gravityFlips (GameState.chaos after)
     = ChaosState.gravityFlips (GameState.chaos state)
  /\ ChaosState.gravityMultiplier (GameState.chaos after)
     = ChaosState.gravityMultiplier (GameState.chaos state)
  /\ GameState.config after = GameState.config state.
Proof.
  cbn zeta. unfold animateBlackHole. destruct (_ >=? 1); repeat split.
Qed.

(** ** The two hazard-enabled flags *)

Lemma updateConfig_synced (state : GameState.t) (updates : PartialConfig.t) :
  synced (updateConfig state updates).
Proof. reflexivity. Qed.

Lemma startGame_synced (state : GameState.t) (w : World) :
  synced (fst (startGame state w)).
Proof. reflexivity. Qed.

Lemma handleJump_keeps_synced (state : GameState.t) (w : World) :
  synced state -> synced (fst (handleJump state w)).
Proof.
  intros Hs. unfold handleJump.
  destruct (BlackHoleEffect.active _); [exact Hs|].
  destruct (truthy _); [exact Hs|].
  destruct (GameState.status state); first [exact Hs | reflexivity].
Qed.

Lemma updateGame_keeps_synced (state : GameState.t) (w : World) :
  synced state -> synced (fst (updateGame state w)).
Proof.
  unfold synced. intros Hs. tick_cases state w.
  - exact Hs.
  - destruct (animateBlackHole_gravity state) as (He & _ & _ & Hc).
    cbn zeta in *. now rewrite He, Hc.
  - rewrite resolveFrame_chaos, resolveFrame_config, frameOf_chaos.
    destruct (frameChaos_gravity state (nextFrame w)) as (He & _).
    cbn zeta in *. now rewrite He.
Qed.

(** ** Gravity-flip zones *)

Lemma updateGame_zone_count (state : GameState.t) (w : World) :
  (List.length (ChaosState.gravityFlips
                  (GameState.chaos (fst (updateGame state w))))
   <= List.length (ChaosState.gravityFlips (GameState.chaos state)))%nat.
Proof.
  tick_cases state w.
  - apply Nat.le_refl.
  - destruct (animateBlackHole_gravity state) as (_ & Hf & _).
    cbn zeta in Hf. rewrite Hf. apply Nat.le_refl.
  - rewrite resolveFrame_chaos, frameOf_chaos.
    destruct (frameChaos_gravity state (nextFrame w)) as (_ & _ & Hf).
    cbn zeta in Hf. rewrite Hf.
    destruct (_ && _); [|apply Nat.le_refl].
    rewrite length_map. unfold updatedGravityFlips.
    etransitivity; [apply filter_length_le|]. now rewrite length_map.
Qed.

Lemma frameChaos_quiet (state : GameState.t) (w : World) :
  gravityQuiet (GameState.chaos state) ->
  gravityQuiet (fst (frameChaos state w)).
Proof.
  intros [Hflips Hmult].
  destruct (frameChaos_gravity state w) as (_ & Hm & Hf). cbn zeta in *.
  unfold gravityQuiet. rewrite Hm, Hf. unfold updatedGravityFlips.
  rewrite Hflips. destruct (_ && _); auto.
Qed.

Lemma reachable_quiet (state : GameState.t) :
  reachable state -> gravityQuiet (GameState.chaos state).
Proof.
  induction 1 as [best | state w _ IH | state w _ IH | state u _ IH | state _ _].
  - split; reflexivity.
  - unfold handleJump.
    destruct (BlackHoleEffect.active _); [exact IH|].
    destruct (truthy _); [exact IH|].
    destruct (GameState.status state); first [exact IH | split; reflexivity].
  - tick_cases state w.
    + exact IH.
    + destruct (animateBlackHole_gravity state) as (_ & Hf & Hm & _).
      cbn zeta in *. unfold gravityQuiet. now rewrite Hf, Hm.
    + rewrite resolveFrame_chaos, frameOf_chaos. now apply frameChaos_quiet.
  - exact IH.
  - split; reflexivity.
Qed.





(** C9. No command adds a gravity-flip zone: a tick never lengthens the zone
    list, and in every state reachable from the initial one the list is
    empty and the multiplier is [+1]; so in every frame played from a
    reachable state the multiplier used for the bird is [+1] and the
    effective gravity is the configured gravity. *)
Theorem gravity_never_flips (state : GameState.t) :
  reachable state ->
  ChaosState.gravityFlips (GameState.chaos state) = []
  /\ ChaosState.gravityMultiplier (GameState.chaos state) = 1
  /\ (forall w : World,
        ChaosState.gravityMultiplier (newChaos (frameOf state w)) = 1
        /\ GameConfig.gravity (GameState.config state)
           * ChaosState.gravityMultiplier (newChaos (frameOf state w))
           == GameConfig.gravity (GameState.config state)
        /\ newBird (frameOf state w)
           = frameBird state (fst (frameChaos state (nextFrame w))))
  /\ (forall (any : GameState.t) (w : World),
        (List.length (ChaosState.gravityFlips
                        (GameState.chaos (fst (updateGame any w))))
         <= List.length (ChaosState.gravityFlips (GameState.chaos any)))%nat).
Proof.
  intros Hreach. destruct (reachable_quiet state Hreach) as [Hflips Hmult].
  split; [exact Hflips|]. split; [exact Hmult|]. split.
  - intros w.
    assert (Hq : gravityQuiet (newChaos (frameOf state w))).
    { rewrite frameOf_chaos. apply frameChaos_quiet. now split. }
    destruct Hq as [_ Hm]. rewrite Hm. split; [reflexivity|]. split.
    + apply Qmult_1_r.
    + pose proof (frameOf_locals state w) as Hf. cbn zeta in Hf. now rewrite Hf.
  - intros any w. apply updateGame_zone_count.
Qed.

(** ** Ghost pipes *)

Lemma revealSchrodingerPipe_spec (pipe : Pipe.t) (bird : Bird.t) :
  let shown := revealSchrodingerPipe pipe bird in
  truthy (Pipe.isRevealed shown)
  = truthy (Pipe.isRevealed pipe)
    || (inSuperposition pipe && nearPipe bird pipe)
  /\ Pipe.isGhost shown = Pipe.isGhost pipe
  /\ Pipe.x shown = Pipe.x pipe
  /\ Pipe.passed shown = Pipe.passed pipe
  /\ shown = Pipe_with_ghost pipe (Pipe.isGhost pipe) (Pipe.isRevealed shown).
Proof.
  cbn zeta. unfold revealSchrodingerPipe, inSuperposition, nearPipe.
  destruct pipe as [x top bottom width passed ghost revealed e ea ec eon eoff].
  cbn [Pipe.isGhost Pipe.isRevealed Pipe.x Pipe.width].
  destruct ghost as [g|]; [|now rewrite orb_false_r].
  destruct (truthy revealed) eqn:Hr; [now repeat split|].
  destruct (_ >? _); cbn; rewrite ?Hr; now repeat split.
Qed.

Lemma markPassed_ghost (bird : Bird.t) (pipe : Pipe.t) :
  Pipe.isGhost (markPassed bird pipe) = Pipe.isGhost pipe
  /\ Pipe.isRevealed (markPassed bird pipe) = Pipe.isRevealed pipe
  /\ Pipe.x (markPassed bird pipe) = Pipe.x pipe.
Proof. unfold markPassed. now destruct (newlyPassed bird pipe). Qed.






(** * Further properties of the code *)

(** ** The bird in flight (physics.ts, bird.ts) *)

Lemma ofNat_S (n : nat) : ofNat (S n) == ofNat n + 1.
Proof.
  unfold ofNat. rewrite Nat2Z.inj_succ, <- Z.add_1_r, inject_Z_plus.
  reflexivity.
Qed.


Lemma ofNat_lt (n m : nat) : (n < m)%nat -> ofNat n < ofNat m.
Proof. intros H. unfold ofNat. rewrite <- Zlt_Qlt. lia. Qed.

Lemma fly_S (gravity : Q) (pt : PhysicsType) (jumpHeight : Q) (n : nat)
    (bird : Bird.t) :
  fly gravity pt jumpHeight (S n) bird
  = updateBird (fly gravity pt jumpHeight n bird) gravity pt jumpHeight.
Proof. reflexivity. Qed.


Lemma fly_jumpTime (gravity : Q) (pt : PhysicsType) (jumpHeight : Q)
    (n : nat) (bird : Bird.t) :
  Bird.jumpTime (fly gravity pt jumpHeight n bird)
  == Bird.jumpTime bird + ofNat n.
Proof.
  induction n as [|n IH].
  - change (fly gravity pt jumpHeight 0 bird) with bird.
    change (ofNat 0) with 0. ring.
  - rewrite fly_S. cbn [updateBird Bird.jumpTime]. rewrite IH, ofNat_S. ring.
Qed.

Lemma fly_shape (gravity : Q) (pt : PhysicsType) (jumpHeight : Q)
    (n : nat) (bird : Bird.t) :
  Bird.x (fly gravity pt jumpHeight n bird) = Bird.x bird
  /\ Bird.width (fly gravity pt jumpHeight n bird) = Bird.width bird
  /\ Bird.height (fly gravity pt jumpHeight n bird) = Bird.height bird.
Proof.
  induction n as [|n IH]; [now repeat split|]. rewrite fly_S. exact IH.
Qed.

(** X2. Whatever the curve, every frame adds one to the time since the last
    impulse and an impulse resets it: [n] frames after a jump the counter
    reads [n].  Flying and jumping never move the bird sideways or resize
    it. *)
Theorem jumpTime_counts_frames (bird : Bird.t) (gravity : Q) (pt : PhysicsType)
    (jumpHeight : Q) (n : nat) :
  let jumped := jumpBird bird jumpHeight pt in
  let after := fly gravity pt jumpHeight n jumped in
  Bird.jumpTime jumped = 0
  /\ Bird.jumpTime after == ofNat n
  /\ Bird.jumpTime (fly gravity pt jumpHeight n bird)
     == Bird.jumpTime bird + ofNat n
  /\ Bird.x after = Bird.x bird
  /\ Bird.width after = Bird.width bird
  /\ Bird.height after = Bird.height bird
  /\ Bird.y jumped = Bird.y bird.
Proof.
  cbn zeta. split; [reflexivity|]. split; [|split; [apply fly_jumpTime|]].
  - rewrite fly_jumpTime. cbn [jumpBird Bird.jumpTime]. ring.
  - destruct (fly_shape gravity pt jumpHeight n (jumpBird bird jumpHeight pt))
      as (Hx & Hw & Hh).
    repeat split; assumption.
Qed.

(** X3. On the linear curve a jump of positive height climbs at the constant
    speed of half the jump height for twenty frames, whatever the gravity;
    the twenty-first frame is the first to apply gravity, at 1.2 times its
    strength. *)
Theorem linear_ascent (bird : Bird.t) (gravity jumpHeight : Q) (n : nat) :
  0 < jumpHeight ->
  (n <= 20)%nat ->
  let jumped := jumpBird bird jumpHeight linear in
  let after := fly gravity linear jumpHeight n jumped in
  Bird.velocity after = - jumpHeight * 0.5
  /\ Bird.y after == Bird.y bird - ofNat n * (jumpHeight * 0.5)
  /\ (n = 20%nat ->
      Bird.velocity (fly gravity linear jumpHeight 21 jumped)
      = - jumpHeight * 0.5 + gravity * 1.2).
Proof.
  intros Hjump Hn. cbn zeta.
  set (jumped := jumpBird bird jumpHeight linear).
  assert (Hclimb : forall k, (k <= 20)%nat ->
             Bird.velocity (fly gravity linear jumpHeight k jumped)
             = - jumpHeight * 0.5
             /\ Bird.y (fly gravity linear jumpHeight k jumped)
                == Bird.y bird - ofNat k * (jumpHeight * 0.5)).
  { induction k as [|k IH]; intros Hk.
    - change (fly gravity linear jumpHeight 0 jumped) with jumped.
      change (ofNat 0) with 0. split; [reflexivity|].
      cbn [jumped jumpBird Bird.y]. ring.
    - destruct IH as [IHv IHy]; [lia|].
      pose proof (fly_jumpTime gravity linear jumpHeight k jumped) as Htime.
      change (Bird.jumpTime jumped) with 0 in Htime. rewrite Qplus_0_l in Htime.
      rewrite fly_S. unfold updateBird, updatePosition.
      cbn [Bird.velocity Bird.y applyGravity].
      rewrite IHv.
      replace (- jumpHeight * 0.5 <? 0) with true
        by (symmetry; apply Qltb_lt; lra).
      replace (_ <? JUMP_DURATION.linear) with true.
      + cbn [andb]. split; [reflexivity|]. rewrite IHy, ofNat_S. ring.
      + symmetry. apply Qltb_lt. rewrite Htime.
        change JUMP_DURATION.linear with (ofNat 20). apply ofNat_lt. lia. }
  destruct (Hclimb n Hn) as [Hv Hy]. split; [exact Hv|]. split; [exact Hy|].
  intros ->. destruct (Hclimb 20%nat (Nat.le_refl _)) as [Hv20 _].
  pose proof (fly_jumpTime gravity linear jumpHeight 20 jumped) as Htime.
  change (Bird.jumpTime jumped) with 0 in Htime. rewrite Qplus_0_l in Htime.
  rewrite fly_S. unfold updateBird. cbn [Bird.velocity applyGravity].
  rewrite Hv20.
  replace (_ <? JUMP_DURATION.linear) with false; [now rewrite andb_false_r|].
  symmetry. apply Qltb_ge. rewrite Htime. apply Qle_refl.
Qed.

(** ** Pipes (pipes.ts) *)

(** Turns the boolean comparisons of the goal into inequalities, case by
    case. *)
Ltac compare_all :=
  unfold Qgtb in *;
  repeat match goal with
         | |- context [?a <? ?b] =>
             let E := fresh "Hcmp" in
             destruct (a <? b) eqn:E;
             [apply Qltb_lt in E | apply Qltb_ge in E]
         end.


(** Whether a pipe is due depends on the newest pipe alone: an empty
    list always asks for one, and otherwise the answer is whether the last
    pipe has moved left of [480 - spacing]. *)
Lemma shouldSpawnPipe_last (pipes : list Pipe.t) (last : Pipe.t) (spacing : Q) :
  shouldSpawnPipe [] spacing = true
  /\ shouldSpawnPipe (pipes ++ [last]) spacing
     = (Pipe.x last <? CANVAS.width - spacing)
  /\ (shouldSpawnPipe (pipes ++ [last]) spacing = true
      <-> Pipe.x last < 480 - spacing).
Proof.
  assert (Hlast : shouldSpawnPipe (pipes ++ [last]) spacing
                  = (Pipe.x last <? CANVAS.width - spacing)).
  { unfold shouldSpawnPipe. now rewrite rev_unit. }
  split; [reflexivity|]. split; [exact Hlast|].
  rewrite Hlast. apply Qltb_lt.
Qed.

Lemma scroll_S (speed : Q) (n : nat) (pipes : list Pipe.t) :
  scroll speed (S n) pipes = updatePipes (scroll speed n pipes) speed.
Proof. reflexivity. Qed.

(** A single pipe that scrolls is either gone or where the speed took it. *)
Lemma scroll_single (speed : Q) (pipe : Pipe.t) (n : nat) :
  scroll speed n [pipe] = []
  \/ exists moved,
       scroll speed n [pipe] = [moved]
       /\ Pipe.x moved == Pipe.x pipe - ofNat n * speed
       /\ Pipe.width moved = Pipe.width pipe.
Proof.
  induction n as [|n [Hgone | (moved & Hat & Hx & Hw)]].
  - right. exists pipe. change (ofNat 0) with 0.
    split; [reflexivity|]. split; [ring|reflexivity].
  - left. rewrite scroll_S, Hgone. reflexivity.
  - rewrite scroll_S, Hat. unfold updatePipes. cbn [map filter].
    destruct (_ >? -50); [right|now left].
    eexists. split; [reflexivity|]. cbn [Pipe_with_x Pipe.x Pipe.width].
    split; [|exact Hw]. rewrite Hx, ofNat_S. ring.
Qed.

(** X5. At any positive speed every pipe leaves the game: once the frames
    scrolled cover the distance from the pipe's trailing edge to 50 units
    left of the screen, the pipe has been removed, and it never comes
    back. *)
Theorem pipe_eventually_culled (speed : Q) (pipe : Pipe.t) (n : nat) :
  0 < speed ->
  (1 <= n)%nat ->
  Pipe.x pipe + Pipe.width pipe + 50 <= ofNat n * speed ->
  forall later : nat, (n <= later)%nat -> scroll speed later [pipe] = [].
Proof.
  intros Hspeed Hn Hfar.
  assert (Hat : scroll speed n [pipe] = []).
  { destruct n as [|n]; [lia|].
    rewrite scroll_S.
    destruct (scroll_single speed pipe n) as [-> | (moved & -> & Hx & Hw)];
      [reflexivity|].
    unfold updatePipes. cbn [map filter Pipe_with_x Pipe.x Pipe.width].
    replace (_ >? -50) with false; [reflexivity|].
    symmetry. apply Qgtb_le. rewrite Hx, Hw. rewrite ofNat_S in Hfar. lra. }
  intros later Hlater. induction Hlater as [|later _ IH]; [exact Hat|].
  now rewrite scroll_S, IH.
Qed.

(** X6. A pipe never both blocks and electrocutes: the pillar test and the
    electrified-gap test exclude each other.  Under an electrified pipe
    whose current is on, a bird alongside it survives both tests only by
    touching the edge of the gap exactly. *)
Theorem pillar_or_gap (bird : Bird.t) (pipe : Pipe.t) :
  checkPipeCollision bird pipe && checkElectricPipeCollision bird [pipe] = false
  /\ (truthy (Pipe.isElectric pipe) = true ->
      truthy (Pipe.electricActive pipe) = true ->
      alongside bird pipe ->
      (checkPipeCollision bird pipe || checkElectricPipeCollision bird [pipe]
       = false
       <-> Pipe.topHeight pipe <= Bird.y bird
           /\ Bird.y bird + Bird.height bird <= Pipe.bottomY pipe
           /\ (Bird.y bird == Pipe.topHeight pipe
               \/ Bird.y bird + Bird.height bird == Pipe.bottomY pipe))).
Proof.
  split.
  - unfold checkPipeCollision, checkElectricPipeCollision. cbn zeta.
    cbn [existsb]. rewrite orb_false_r.
    destruct (truthy (Pipe.isElectric pipe) && truthy (Pipe.electricActive pipe));
      cbn [andb]; [|apply andb_false_r].
    compare_all; cbn; try reflexivity; exfalso; lra.
  - intros Helectric Hon [Hleft Hright].
    unfold checkPipeCollision, checkElectricPipeCollision. cbn zeta.
    cbn [existsb]. rewrite orb_false_r, Helectric, Hon. cbn [andb].
    compare_all; cbn; split; intros H;
      try discriminate; try reflexivity; try (exfalso; lra);
      try (destruct H as (Htop & Hbottom & [Hedge | Hedge]); exfalso; lra).
    all: split; [lra|]; split; [lra|].
    all: destruct (Qlt_le_dec (Pipe.topHeight pipe) (Bird.y bird));
      [right|left]; lra.
Qed.

(** ** The engine's commands (engine.ts) *)

Lemma resolveFrame_status (state : GameState.t) (f : Frame) :
  GameState.status (resolveFrame state f) = GameState.status state
  \/ GameState.status (resolveFrame state f) = over.
Proof.
  unfold resolveFrame.
  destruct (justBeatBestScore _ _); [now left|].
  destruct (_ || _); [now right|now left].
Qed.

Lemma animateBlackHole_frame (state : GameState.t) :
  let after := animateBlackHole state in
  GameState.status after = GameState.status state
  /\ GameState.score after = GameState.score state
  /\ GameState.bestScore after = GameState.bestScore state.
Proof. cbn zeta. unfold animateBlackHole. now destruct (_ >=? 1). Qed.

(** *** What the effects do to the frame counter *)

Lemma keepsFrame_ret {A : Type} (a : A) : keepsFrame (ret a).
Proof. intros w. reflexivity. Qed.

Lemma keepsFrame_bind {A B : Type} (m : M A) (k : A -> M B) :
  keepsFrame m -> (forall a, keepsFrame (k a)) -> keepsFrame (bind m k).
Proof.
  intros Hm Hk w. unfold bind. specialize (Hm w).
  destruct (m w) as [a w1]. cbn [snd] in Hm. now rewrite Hk.
Qed.

Lemma keepsFrame_random : keepsFrame Math_random.
Proof. intros w. reflexivity. Qed.

Lemma keepsFrame_generateId : keepsFrame generateId.
Proof. intros w. reflexivity. Qed.

Ltac keeps_frame :=
  repeat first
    [ apply keepsFrame_ret
    | apply keepsFrame_random
    | apply keepsFrame_generateId
    | apply keepsFrame_bind; [|intros ?]
    | match goal with
      | |- keepsFrame (if ?c then _ else _) => destruct c
      | |- keepsFrame (match ?x with _ => _ end) => destruct x
      | |- keepsFrame (let (_, _) := ?x in _) => destruct x
      end ].

Lemma keepsFrame_spawnHazard (hazardType : option string)
    (rays : list GammaRay.t) (vortexes : list Vortex.t)
    (particles : list Particle.t) :
  keepsFrame (spawnHazard hazardType rays vortexes particles).
Proof.
  unfold spawnHazard, spawnGammaRay, spawnVortex, spawnParticle. keeps_frame.
Qed.

Lemma keepsFrame_updateChaos (chaos : ChaosState.t) (speed : Q) (frame : Z)
    (hazards : ChaosHazards.t) :
  keepsFrame (updateChaos chaos speed frame hazards).
Proof.
  unfold updateChaos.
  destruct (negb _); [apply keepsFrame_ret|].
  apply keepsFrame_bind.
  - destruct (_ && _); [|apply keepsFrame_ret].
    apply keepsFrame_bind; [apply keepsFrame_random|intros chance].
    destruct (_ <? _); [|apply keepsFrame_ret].
    apply keepsFrame_bind; [apply keepsFrame_random|intros pick].
    apply keepsFrame_bind; [apply keepsFrame_spawnHazard|intros entities].
    apply keepsFrame_ret.
  - intros [[[rays vortexes] particles] lastSpawn]. apply keepsFrame_ret.
Qed.

Lemma keepsFrame_playFrame (state : GameState.t) : keepsFrame (playFrame state).
Proof.
  unfold playFrame. apply keepsFrame_bind.
  - unfold frameChaos. apply keepsFrame_bind; [intros w; reflexivity|intros fc].
    apply keepsFrame_bind; [|intros c; apply keepsFrame_ret].
    destruct (GameConfig.chaosEnabled _);
      [apply keepsFrame_updateChaos|apply keepsFrame_ret].
  - intros chaos. apply keepsFrame_bind.
    + unfold framePipes, createPipe, applySchrodingerEffect. keeps_frame.
    + intros pipes. destruct (countPassedPipes _ _). apply keepsFrame_ret.
Qed.

(** X7. A tick does nothing at all, to the state or to the world, unless the
    game is playing and not waiting for the player; when it does something
    it advances the frame counter by exactly one, and the only change of
    status it can make is from [playing] to [over]. *)
Theorem tick_only_while_playing (state : GameState.t) (w : World) :
  let after := fst (updateGame state w) in
  let w' := snd (updateGame state w) in
  (GameState.status state <> playing
   \/ truthy (BlackHoleEffect.waitingToResume (GameState.blackHole state)) = true ->
   updateGame state w = (state, w))
  /\ (GameState.status after = GameState.status state
      \/ (GameState.status state = playing /\ GameState.status after = over))
  /\ (GameState.status state = playing ->
      truthy (BlackHoleEffect.waitingToResume (GameState.blackHole state)) = false ->
      frameCount w' = (frameCount w + 1)%Z).
Proof.
  cbn zeta. split; [|split].
  - intros [Hstatus | Hwait]; unfold updateGame.
    + destruct (GameState.status state);
        first [reflexivity | now contradiction Hstatus].
    + rewrite Hwait. now destruct (GameState.status state).
  - tick_cases state w.
    + now left.
    + left. apply animateBlackHole_frame.
    + destruct (resolveFrame_status state (frameOf state w)) as [Hsame | Hover];
        [now left|right].
      destruct Hplay as (Hstatus & _). now split.
  - intros Hstatus Hwait. unfold updateGame. rewrite Hstatus, Hwait.
    unfold bind at 1. unfold getFrameCount at 1. unfold bind at 1.
    unfold setFrameCount at 1. fold (nextFrame w).
    destruct (BlackHoleEffect.active _); [reflexivity|].
    pose proof (keepsFrame_playFrame state (nextFrame w)) as Hkeep.
    unfold bind. destruct (playFrame state (nextFrame w)) as [f w1].
    cbn [snd ret] in *. exact Hkeep.
Qed.

Lemma frameOf_scored_nonneg (state : GameState.t) (w : World) :
  (0 <= scored (frameOf state w))%Z.
Proof.
  pose proof (frameOf_locals state w) as Hf. cbn zeta in Hf. rewrite Hf.
  cbn [scored]. lia.
Qed.

Lemma resolveFrame_bestScore (state : GameState.t) (f : Frame) :
  GameState.bestScore (resolveFrame state f)
  = Z.max (GameState.score state + scored f) (GameState.bestScore state).
Proof. resolve_cases. Qed.

(** X8. A tick never lowers the score or the best score, and after a frame
    of play the best score is the larger of the old best and the new score.
    A score between zero and the best score stays so under every command:
    tick, impulse, configuration update and restart. *)
Theorem scores_only_grow (state : GameState.t) (w : World)
    (updates : PartialConfig.t) :
  let after := fst (updateGame state w) in
  (GameState.score state <= GameState.score after)%Z
  /\ (GameState.bestScore state <= GameState.bestScore after)%Z
  /\ (inPlay state ->
      GameState.bestScore after
      = Z.max (GameState.score after) (GameState.bestScore state))
  /\ (scoresInOrder state ->
      scoresInOrder after
      /\ scoresInOrder (fst (handleJump state w))
      /\ scoresInOrder (updateConfig state updates)
      /\ scoresInOrder (restartGame state)).
Proof.
  cbn zeta.
  assert (Htick : (GameState.score state
                   <= GameState.score (fst (updateGame state w)))%Z
                  /\ (GameState.bestScore state
                      <= GameState.bestScore (fst (updateGame state w)))%Z
                  /\ (scoresInOrder state ->
                      scoresInOrder (fst (updateGame state w)))).
  { unfold scoresInOrder. tick_cases state w.
    - lia.
    - destruct (animateBlackHole_frame state) as (_ & -> & ->). lia.
    - rewrite resolveFrame_score, resolveFrame_bestScore.
      pose proof (frameOf_scored_nonneg state w). lia. }
  destruct Htick as (Hscore & Hbest & Horder).
  split; [exact Hscore|]. split; [exact Hbest|]. split.
  - intros Hplay. rewrite (updateGame_inPlay _ _ Hplay). cbn [fst].
    now rewrite resolveFrame_score, resolveFrame_bestScore.
  - intros Hin. split; [auto|]. split; [|split].
    + unfold handleJump.
      destruct (BlackHoleEffect.active _); [exact Hin|].
      destruct (truthy _); [exact Hin|].
      destruct (GameState.status state); try exact Hin.
      unfold scoresInOrder in *. cbn. lia.
    + exact Hin.
    + unfold scoresInOrder in *. cbn. lia.
Qed.

(** X9. An impulse that is not swallowed by the animation always launches
    the bird: its velocity becomes the jump velocity of the current curve
    and its jump timer restarts.  Unless the game was waiting to resume, the
    game is then playing; from a finished game the impulse starts a new one
    with no score, no pipes, hazards cleared, the frame counter at zero, the
    record-break event armed again, and the best score and configuration
    carried over. *)
Theorem impulse_always_launches (state : GameState.t) (w : World) :
  BlackHoleEffect.active (GameState.blackHole state) = false ->
  let after := fst (handleJump state w) in
  let config := GameState.config state in
  let jumpVelocity :=
    applyJump (GameConfig.jumpHeight config) (GameConfig.physicsType config) in
  Bird.velocity (GameState.bird after) = jumpVelocity
  /\ Bird.jumpTime (GameState.bird after) = 0
  /\ GameState.config after = config
  /\ GameState.bestScore after = GameState.bestScore state
  /\ (truthy (BlackHoleEffect.waitingToResume (GameState.blackHole state)) = false ->
      GameState.status after = playing)
  /\ (truthy (BlackHoleEffect.waitingToResume (GameState.blackHole state)) = false ->
      GameState.status state = over ->
      GameState.score after = 0%Z
      /\ GameState.pipes after = []
      /\ GameState.blackHole after = createInitialBlackHole
      /\ GameState.chaos after
         = ChaosState_with_enabled createInitialChaos
             (GameConfig.chaosEnabled config)
      /\ Bird.y (GameState.bird after) = BIRD.startY
      /\ frameCount (snd (handleJump state w)) = 0%Z).
Proof.
  intros Hidle. cbn zeta. unfold handleJump. rewrite Hidle.
  destruct (truthy _) eqn:Hwait.
  - cbn. repeat split; discriminate.
  - destruct (GameState.status state) eqn:Hstatus; cbn;
      repeat split; try reflexivity; try discriminate;
      intros _; exact Hstatus.
Qed.

(** X10. Restarting forgets everything but the best score and the
    configuration: two states that agree on those restart to the same
    state; restarting twice is restarting once; and a tick leaves the
    restarted game, which is [ready], exactly as it is. *)
Theorem restart_forgets (state other : GameState.t) (w : World) :
  (GameState.bestScore state = GameState.bestScore other ->
   GameState.config state = GameState.config other ->
   restartGame state = restartGame other)
  /\ restartGame (restartGame state) = restartGame state
  /\ GameState.status (restartGame state) = ready
  /\ GameState.score (restartGame state) = 0%Z
  /\ GameState.bestScore (restartGame state) = GameState.bestScore state
  /\ GameState.config (restartGame state) = GameState.config state
  /\ updateGame (restartGame state) w = (restartGame state, w).
Proof.
  split; [|repeat split].
  intros Hbest Hconfig. unfold restartGame. now rewrite Hbest, Hconfig.
Qed.


(** ** The pipes of a frame (engine.ts) *)

Lemma finishPipe_keeps (config : GameConfig.t) (bird : Bird.t) (pipe : Pipe.t) :
  geometry (finishPipe config bird pipe) = geometry pipe
  /\ Pipe.passed (finishPipe config bird pipe) = Pipe.passed pipe
  /\ Pipe.isGhost (finishPipe config bird pipe) = Pipe.isGhost pipe.
Proof.
  assert (He : geometry (updateElectricPipe pipe) = geometry pipe
               /\ Pipe.passed (updateElectricPipe pipe) = Pipe.passed pipe
               /\ Pipe.isGhost (updateElectricPipe pipe) = Pipe.isGhost pipe).
  { unfold updateElectricPipe. now destruct (negb _). }
  assert (Hr : forall p,
             geometry (revealSchrodingerPipe p bird) = geometry p
             /\ Pipe.passed (revealSchrodingerPipe p bird) = Pipe.passed p
             /\ Pipe.isGhost (revealSchrodingerPipe p bird) = Pipe.isGhost p).
  { intros p. unfold revealSchrodingerPipe.
    destruct (Pipe.isGhost p) eqn:Hg; [|now rewrite Hg].
    destruct (truthy _); [now rewrite Hg|].
    destruct (_ >? _); [|now rewrite Hg]. now repeat split. }
  unfold finishPipe.
  destruct (GameConfig.chaosEnabled config); cbn [andb]; [|now repeat split].
  destruct (ChaosHazards.electricPillars _).
  - destruct (Hr (updateElectricPipe pipe)) as (-> & -> & ->). exact He.
  - apply Hr.
Qed.

(** The pipes a frame hands to the scoring: the survivors of the move and
    at most one new pipe, each finished by [finishPipe]; only the
    modifiers of the new pipe depend on the random draws after the first. *)
Lemma framePipes_shape (state : GameState.t) (chaos : ChaosState.t)
    (bird : Bird.t) (w : World) :
  let config := GameState.config state in
  let moved := updatePipes (GameState.pipes state) (GameConfig.speed config) in
  exists tail,
    fst (framePipes state chaos bird w)
    = map (finishPipe config bird) (moved ++ tail)
    /\ if shouldSpawnPipe moved (GameConfig.pipeSpacing config)
       then exists created,
              tail = [created]
              /\ geometry created
                 = geometry (fst (createPipe (CANVAS.width + 50)
                                    (GameConfig.pipeGap config) w))
              /\ Pipe.passed created = false
       else tail = [].
Proof.
  cbn zeta. unfold framePipes.
  set (moved := updatePipes _ _).
  unfold bind at 1.
  match goal with
  | |- context [let (_, _) := ?m in _] =>
      assert (Hspawn : exists tail,
                 fst m = moved ++ tail
                 /\ if shouldSpawnPipe moved
                         (GameConfig.pipeSpacing (GameState.config state))
                    then exists created,
                           tail = [created]
                           /\ geometry created
                              = geometry
                                  (fst (createPipe (CANVAS.width + 50)
                                          (GameConfig.pipeGap
                                             (GameState.config state)) w))
                           /\ Pipe.passed created = false
                    else tail = []);
      [|destruct m as [spawned w']]
  end.
  - destruct (shouldSpawnPipe moved _).
    + unfold bind at 1.
      destruct (createPipe (CANVAS.width + 50) _ w) as [fresh w0] eqn:Hfresh.
      assert (Hplain : Pipe.passed fresh = false).
      { unfold createPipe, bind, ret, Math_random in Hfresh.
        inversion Hfresh. reflexivity. }
      unfold bind at 1.
      match goal with
      | |- context [let (_, _) := ?m in _] =>
          destruct m as [ghosted w1] eqn:Hghosted
      end.
      assert (Hsame : geometry ghosted = geometry fresh
                      /\ Pipe.passed ghosted = Pipe.passed fresh).
      { destruct (_ && _) in Hghosted.
        - unfold applySchrodingerEffect in Hghosted.
          destruct (_ || _) in Hghosted;
            [unfold ret in Hghosted; inversion Hghosted; now split|].
          destruct (Pipe.isGhost fresh);
            unfold bind, ret, Math_random in Hghosted;
            inversion Hghosted; now split.
        - unfold ret in Hghosted. inversion Hghosted. now split. }
      destruct Hsame as [Hgeo Hpassed].
      unfold bind at 1.
      match goal with
      | |- context [let (_, _) := ?m in _] => destruct m as [electric w2]
      end.
      cbn [ret fst]. eexists. split; [reflexivity|].
      eexists. split; [reflexivity|].
      destruct electric; cbn [fst]; rewrite <- Hgeo, <- Hplain, <- Hpassed;
        now split.
    + exists []. cbn [ret fst]. now rewrite app_nil_r.
  - cbn [ret fst] in *. destruct Hspawn as (tail & -> & Htail).
    exists tail. split; [|exact Htail].
    unfold finishPipe.
    destruct (GameConfig.chaosEnabled _); cbn [andb].
    + destruct (ChaosHazards.electricPillars _); [now rewrite map_map|].
      reflexivity.
    + now rewrite map_id.
Qed.

Lemma markPassed_geometry (bird : Bird.t) (pipe : Pipe.t) :
  geometry (markPassed bird pipe) = geometry pipe.
Proof. unfold markPassed. now destruct (newlyPassed bird pipe). Qed.

(** X12. A frame of play changes the list of pipes in one way only: the
    pipes that survive the move keep their order, their gap and their
    width, and at most one pipe is added at the end, at [x = 530] with the
    standard width, exactly when [shouldSpawnPipe] asks for one.  No
    modifier moves a pipe or its gap, and the ghost status of a pipe that
    was on screen is what it was. *)
Theorem frame_keeps_pipe_geometry (state : GameState.t) (w : World) :
  inPlay state ->
  let config := GameState.config state in
  let moved := updatePipes (GameState.pipes state) (GameConfig.speed config) in
  let after := GameState.pipes (fst (updateGame state w)) in
  exists tail,
    map geometry after = map geometry moved ++ tail
    /\ firstn (List.length moved) (map Pipe.isGhost after)
       = map Pipe.isGhost moved
    /\ if shouldSpawnPipe moved (GameConfig.pipeSpacing config)
       then exists top bottom,
              tail = [(530, top, bottom, 60)]
              /\ List.length after = S (List.length moved)
       else tail = [] /\ List.length after = List.length moved.
Proof.
  intros Hplay. cbn zeta.
  rewrite (updateGame_inPlay _ _ Hplay). cbn [fst].
  rewrite resolveFrame_pipes.
  pose proof (frameOf_locals state w) as Hf. cbn zeta in Hf. rewrite Hf.
  cbn [newPipes]. clear Hf. unfold pipesBeforeScoring.
  destruct (frameChaos state (nextFrame w)) as [chaos w1]. cbn [fst].
  set (bird := frameBird state chaos).
  destruct (framePipes_shape state chaos bird w1) as (tail & -> & Htail).
  cbn zeta in Htail.
  set (moved := updatePipes _ _) in *.
  set (finish := finishPipe (GameState.config state) bird).
  assert (Hgeo : forall l,
             map geometry (map (markPassed bird) (map finish l))
             = map geometry l).
  { intros l. rewrite !map_map. apply map_ext. intros p.
    rewrite markPassed_geometry. apply finishPipe_keeps. }
  assert (Hghost : forall l,
             map Pipe.isGhost (map (markPassed bird) (map finish l))
             = map Pipe.isGhost l).
  { intros l. rewrite !map_map. apply map_ext. intros p.
    destruct (markPassed_ghost bird (finish p)) as (-> & _).
    apply finishPipe_keeps. }
  exists (map geometry tail). split; [|split].
  - now rewrite Hgeo, map_app.
  - rewrite Hghost, map_app.
    rewrite <- (length_map Pipe.isGhost moved) at 1.
    now rewrite firstn_app, Nat.sub_diag, firstn_all, firstn_O, app_nil_r.
  - rewrite !length_map, length_app.
    destruct (shouldSpawnPipe moved _).
    + destruct Htail as (created & -> & Hcreated & _).
      unfold createPipe, bind, ret, Math_random in Hcreated.
      cbn [fst geometry Pipe.x Pipe.topHeight Pipe.bottomY Pipe.width]
        in Hcreated.
      do 2 eexists. cbn [map List.length]. rewrite Hcreated.
      split; [reflexivity|lia].
    + subst tail. cbn [map List.length]. split; [reflexivity|lia].
Qed.

(** ** The bird of a frame (engine.ts) *)

(** X13. In a frame of play the bird keeps its size and its jump timer
    advances by one.  With chaos mode off it never moves sideways and obeys
    the physics alone; with chaos mode on the vortex pull may move it
    sideways, but never outside the band from 20 to 150, and never changes
    its height in that frame. *)
Theorem bird_stays_in_band (state : GameState.t) (w : World) :
  inPlay state ->
  let config := GameState.config state in
  let before := GameState.bird state in
  let after := GameState.bird (fst (updateGame state w)) in
  let multiplier :=
    ChaosState.gravityMultiplier (GameState.chaos (fst (updateGame state w))) in
  let flown :=
    updateBird before (GameConfig.gravity config * multiplier)
      (GameConfig.physicsType config) (GameConfig.jumpHeight config) in
  Bird.width after = Bird.width before
  /\ Bird.height after = Bird.height before
  /\ Bird.jumpTime after = Bird.jumpTime before + 1
  /\ Bird.y after = Bird.y flown
  /\ (GameConfig.chaosEnabled config = false -> after = flown)
  /\ (GameConfig.chaosEnabled config = true ->
      20 <= Bird.x after /\ Bird.x after <= 150).
Proof.
  intros Hplay. cbn zeta.
  rewrite (updateGame_inPlay _ _ Hplay). cbn [fst].
  rewrite resolveFrame_bird, resolveFrame_chaos, frameOf_chaos.
  pose proof (frameOf_locals state w) as Hf. cbn zeta in Hf. rewrite Hf.
  cbn [newBird]. clear Hf.
  set (chaos := fst (frameChaos state (nextFrame w))).
  unfold frameBird.
  destruct (GameConfig.chaosEnabled (GameState.config state)).
  - destruct (applyVortexForce _ chaos) as [vx vy].
    cbn [Bird.width Bird.height Bird.jumpTime Bird.y Bird.x updateBird].
    do 4 (split; [reflexivity|]). split; [discriminate|]. intros _. split.
    + apply Q.le_max_l.
    + apply Q.max_lub; [lra|apply Q.le_min_r].
  - do 4 (split; [reflexivity|]). split; [reflexivity|discriminate].
Qed.

(** ** Chaos mode switched off (engine.ts) *)

Lemma frameChaos_classic (state : GameState.t) (w : World) :
  GameConfig.chaosEnabled (GameState.config state) = false ->
  frameChaos state w = (GameState.chaos state, w).
Proof.
  intros Hoff. unfold frameChaos, bind, ret, getFrameCount. now rewrite Hoff.
Qed.

Lemma framePipes_classic (state : GameState.t) (chaos : ChaosState.t)
    (bird : Bird.t) (w : World) :
  GameConfig.chaosEnabled (GameState.config state) = false ->
  let config := GameState.config state in
  let moved := updatePipes (GameState.pipes state) (GameConfig.speed config) in
  framePipes state chaos bird w
  = if shouldSpawnPipe moved (GameConfig.pipeSpacing config)
    then (moved ++ [fst (createPipe (CANVAS.width + 50)
                           (GameConfig.pipeGap config) w)],
          snd (createPipe (CANVAS.width + 50) (GameConfig.pipeGap config) w))
    else (moved, w).
Proof.
  intros Hoff. cbn zeta. unfold framePipes. rewrite Hoff. cbn [andb].
  destruct (shouldSpawnPipe _ _); reflexivity.
Qed.

Lemma resolveFrame_classic (state : GameState.t) (f : Frame) :
  GameState.status state = playing ->
  GameConfig.chaosEnabled (GameState.config state) = false ->
  ChaosState.enabled (newChaos f) = false ->
  justBeatBestScore state (GameState.score state + scored f) = false ->
  (GameState.status (resolveFrame state f) = over <->
   checkAnyCollision (newBird f) (realPipes (newPipes f))
   || isBirdOutOfBounds (newBird f) = true).
Proof.
  intros Hstatus Hoff Hdisabled Hquiet. unfold resolveFrame.
  rewrite Hquiet, Hoff. cbn [andb].
  unfold checkChaosCollision. rewrite Hdisabled. cbn [negb].
  rewrite !orb_false_r.
  destruct (_ || _); cbn [GameState_after GameState.status];
    [split; reflexivity|rewrite Hstatus; split; discriminate].
Qed.

(** X14. With chaos mode off, in the configuration and in the aggregate, a
    frame of play is the classic game: the hazard aggregate is untouched, a
    new pipe is a plain pipe, the only random draw is the height of that
    pipe, and unless the record-break event fires the game ends exactly
    when the bird hits a pipe that passes the ghost filter or leaves the
    field. *)
Theorem classic_frame (state : GameState.t) (w : World) :
  inPlay state ->
  GameConfig.chaosEnabled (GameState.config state) = false ->
  ChaosState.enabled (GameState.chaos state) = false ->
  let config := GameState.config state in
  let moved := updatePipes (GameState.pipes state) (GameConfig.speed config) in
  let spawn := shouldSpawnPipe moved (GameConfig.pipeSpacing config) in
  let fresh :=
    fst (createPipe (CANVAS.width + 50) (GameConfig.pipeGap config)
           (nextFrame w)) in
  let after := fst (updateGame state w) in
  let w' := snd (updateGame state w) in
  let bird := GameState.bird after in
  GameState.chaos after = GameState.chaos state
  /\ GameState.pipes after
     = map (markPassed bird) (moved ++ if spawn then [fresh] else [])
  /\ cursor w' = (cursor w + if spawn then 1 else 0)%nat
  /\ idCounter w' = idCounter w
  /\ (justBeatBestScore state (scoreAfterScoring state w) = false ->
      (GameState.status after = over <->
       checkAnyCollision bird (realPipes (GameState.pipes after))
       || isBirdOutOfBounds bird = true)).
Proof.
  intros Hplay Hoff Hdisabled. cbn zeta.
  rewrite (updateGame_inPlay _ _ Hplay). cbn [fst snd].
  rewrite resolveFrame_chaos, resolveFrame_pipes, resolveFrame_bird.
  pose proof (frameOf_locals state w) as Hf. cbn zeta in Hf.
  unfold pipesBeforeScoring in Hf.
  rewrite (frameChaos_classic _ _ Hoff) in Hf. cbn [fst] in Hf.
  rewrite (framePipes_classic _ _ _ _ Hoff) in Hf. cbn zeta in Hf.
  assert (Hchaos : newChaos (frameOf state w) = GameState.chaos state)
    by now rewrite Hf.
  split; [exact Hchaos|]. split; [|split; [|split]].
  - rewrite Hf. cbn [newPipes newBird].
    destruct (shouldSpawnPipe _ _); cbn [fst]; now rewrite ?app_nil_r.
  - unfold playFrame, bind.
    rewrite (frameChaos_classic _ _ Hoff), (framePipes_classic _ _ _ _ Hoff).
    cbn zeta. destruct (shouldSpawnPipe _ _).
    + destruct (countPassedPipes _ _). cbn. lia.
    + destruct (countPassedPipes _ _). cbn. lia.
  - unfold playFrame, bind.
    rewrite (frameChaos_classic _ _ Hoff), (framePipes_classic _ _ _ _ Hoff).
    cbn zeta. destruct (shouldSpawnPipe _ _);
      destruct (countPassedPipes _ _); reflexivity.
  - intros Hquiet. destruct Hplay as (Hstatus & _).
    apply resolveFrame_classic; try assumption.
    now rewrite Hchaos.
Qed.

(** ** Pipes in superposition (chaos.ts) *)

(** X15. The ghost status of a pipe is decided once: [applySchrodingerEffect]
    leaves a pipe whose status is decided exactly as it is and draws
    nothing, so applying it twice is applying it once; on an undecided pipe,
    with the mode on, it makes a ghost exactly when the draw exceeds 0.5 and
    starts it unrevealed.  Revealing never alters the ghost status, never
    hides a revealed pipe, and revealing twice is revealing once. *)
Theorem superposition_decided_once (pipe : Pipe.t) (chaos : ChaosState.t)
    (bird : Bird.t) (w : World) :
  let decided := fst (applySchrodingerEffect pipe chaos w) in
  let w1 := snd (applySchrodingerEffect pipe chaos w) in
  let shown := revealSchrodingerPipe pipe bird in
  (Pipe.isGhost pipe <> None ->
   applySchrodingerEffect pipe chaos w = (pipe, w))
  /\ applySchrodingerEffect decided chaos w1 = (decided, w1)
  /\ (ChaosState.enabled chaos = true ->
      ChaosState.schrodingerMode chaos = true ->
      Pipe.isGhost pipe = None ->
      decided = Pipe_with_ghost pipe (Some (draws w (cursor w) >? 0.5))
                  (Some false)
      /\ cursor w1 = S (cursor w))
  /\ Pipe.isGhost shown = Pipe.isGhost pipe
  /\ (truthy (Pipe.isRevealed pipe) = true -> shown = pipe)
  /\ revealSchrodingerPipe shown bird = shown.
Proof.
  cbn zeta. split; [|split; [|split; [|split; [|split]]]].
  - intros Hdecided. unfold applySchrodingerEffect.
    destruct (_ || _); [reflexivity|].
    now destruct (Pipe.isGhost pipe).
  - unfold applySchrodingerEffect.
    destruct (_ || _); [reflexivity|].
    destruct (Pipe.isGhost pipe) eqn:Hghost; cbn [ret fst snd];
      [now rewrite Hghost|reflexivity].
  - intros Hon Hmode Hnone. unfold applySchrodingerEffect.
    rewrite Hon, Hmode, Hnone. cbn. split; reflexivity.
  - apply revealSchrodingerPipe_spec.
  - intros Hshown. unfold revealSchrodingerPipe. rewrite Hshown.
    now destruct (Pipe.isGhost pipe).
  - unfold revealSchrodingerPipe.
    destruct (Pipe.isGhost pipe) eqn:Hghost; [|now rewrite Hghost].
    destruct (truthy (Pipe.isRevealed pipe)) eqn:Hshown;
      [now rewrite Hghost, Hshown|].
    destruct (_ >? _) eqn:Hnear.
    + reflexivity.
    + now rewrite Hghost, Hshown, Hnear.
Qed.

(** ** Spawning hazards (chaos.ts) *)

Lemma mapNotNull_length {A B : Type} (f : A -> option B) (l : list A) :
  (List.length (mapNotNull f l) <= List.length l)%nat.
Proof.
  induction l as [|a l IH]; [apply Nat.le_refl|].
  cbn [mapNotNull]. destruct (f a); cbn [List.length]; lia.
Qed.

Lemma spawnHazard_rays (hazardType : option string) (rays : list GammaRay.t)
    (vortexes : list Vortex.t) (particles : list Particle.t) (w : World) :
  (List.length (fst (fst (fst (spawnHazard hazardType rays vortexes particles w))))
   <= Nat.max 1 (List.length rays))%nat.
Proof.
  unfold spawnHazard. destruct hazardType as [kind|]; [|cbn [ret fst]; lia].
  destruct (kind =? "gamma")%string.
  - destruct (Nat.ltb_spec (List.length rays) 1) as [Hnone|Hsome]; [|cbn [ret fst]; lia].
    unfold bind, ret. destruct (spawnGammaRay w) as [ray w1]. cbn [fst].
    rewrite length_app. cbn [List.length]. lia.
  - destruct (kind =? "vortex")%string.
    + unfold bind, ret. destruct (spawnVortex w). cbn [ret fst]. lia.
    + destruct (kind =? "particles")%string; [|cbn [ret fst]; lia].
      unfold bind, ret. destruct (spawnParticle w) as [p1 w1].
      destruct (spawnParticle w1). cbn [ret fst]. lia.
Qed.

Lemma updateChaos_rays (chaos : ChaosState.t) (speed : Q) (frame : Z)
    (hazards : ChaosHazards.t) (w : World) :
  (List.length (ChaosState.gammaRays
                  (fst (updateChaos chaos speed frame hazards w)))
   <= Nat.max 1 (List.length (ChaosState.gammaRays chaos)))%nat.
Proof.
  unfold updateChaos.
  destruct (negb _); [cbn [ret fst]; lia|].
  pose proof (mapNotNull_length updateGammaRay (ChaosState.gammaRays chaos))
    as Hupdated. fold (updatedGammaRays chaos) in Hupdated.
  unfold bind at 1.
  match goal with
  | |- context [let (_, _) := ?m in _] =>
      assert (Hrays : (List.length (fst (fst (fst (fst m))))
                       <= Nat.max 1 (List.length (ChaosState.gammaRays chaos)))%nat);
      [|destruct m as [[[[rays vortexes] particles] lastSpawn] w']]
  end.
  - destruct (_ && _); [|cbn [ret fst]; lia].
    unfold bind at 1. unfold Math_random at 1.
    destruct (_ <? SPAWN_CHANCE); [|cbn [ret fst]; lia].
    unfold bind at 1. unfold Math_random at 1. unfold bind at 1.
    match goal with
    | |- context [spawnHazard ?h ?r ?v ?p ?w0] =>
        pose proof (spawnHazard_rays h r v p w0) as Hspawn;
        destruct (spawnHazard h r v p w0) as [[[rays vortexes] particles] w1]
    end.
    cbn [ret fst] in *. lia.
  - cbn [ret fst ChaosState.gammaRays] in *. exact Hrays.
Qed.

Lemma updateChaos_pillars (chaos : ChaosState.t) (speed : Q) (frame : Z)
    (hazards : ChaosHazards.t) (w : World) :
  ChaosState.electricPillars chaos = [] ->
  ChaosState.electricPillars (fst (updateChaos chaos speed frame hazards w)) = [].
Proof.
  intros Hnone. destruct (ChaosState.enabled chaos) eqn:Hon.
  - now destruct (updateChaos_enabled chaos speed frame hazards w Hon)
      as (_ & Hp & _).
  - now rewrite updateChaos_disabled.
Qed.

Lemma frameChaos_capped (state : GameState.t) (w : World) :
  beamCapped (GameState.chaos state) -> beamCapped (fst (frameChaos state w)).
Proof.
  intros [Hrays Hpillars]. unfold frameChaos, bind, ret, getFrameCount.
  destruct (GameConfig.chaosEnabled _); cbn [fst]; [|now split].
  pose proof (updateChaos_rays (GameState.chaos state)
                (GameConfig.speed (GameState.config state)) (frameCount w)
                (GameConfig.chaosHazards (GameState.config state)) w) as Hr.
  pose proof (updateChaos_pillars (GameState.chaos state)
                (GameConfig.speed (GameState.config state)) (frameCount w)
                (GameConfig.chaosHazards (GameState.config state)) w Hpillars)
    as Hp.
  destruct (updateChaos _ _ _ _ w) as [updated w']. cbn [fst] in *.
  unfold checkGravityFlipTrigger, beamCapped.
  destruct (negb _); cbn [ChaosState_with_gravityFlips ChaosState.gammaRays
                          ChaosState.electricPillars]; split; try assumption;
    lia.
Qed.

(** X16. In every state a session can reach there is at most one gamma ray
    and the separate electric pillars stay unused: the spawner adds a ray
    only when none is on screen.  From any state, a tick leaves at most as
    many rays as there were, or one. *)
Theorem at_most_one_gamma_ray (state : GameState.t) :
  reachable state ->
  (List.length (ChaosState.gammaRays (GameState.chaos state)) <= 1)%nat
  /\ ChaosState.electricPillars (GameState.chaos state) = []
  /\ (forall (any : GameState.t) (w : World),
        (List.length (ChaosState.gammaRays
                        (GameState.chaos (fst (updateGame any w))))
         <= Nat.max 1 (List.length (ChaosState.gammaRays (GameState.chaos any))))%nat).
Proof.
  intros Hreach.
  assert (Hcap : beamCapped (GameState.chaos state)).
  { induction Hreach
      as [best | state w _ IH | state w _ IH | state u _ IH | state _ _].
    - split; [cbn; lia|reflexivity].
    - unfold handleJump.
      destruct (BlackHoleEffect.active _); [exact IH|].
      destruct (truthy _); [exact IH|].
      destruct (GameState.status state);
        first [exact IH | split; [cbn; lia|reflexivity]].
    - tick_cases state w.
      + exact IH.
      + unfold animateBlackHole. destruct (_ >=? 1); [|exact IH].
        split; [cbn; lia|reflexivity].
      + rewrite resolveFrame_chaos, frameOf_chaos. now apply frameChaos_capped.
    - exact IH.
    - split; [cbn; lia|reflexivity]. }
  destruct Hcap as [Hrays Hpillars].
  split; [exact Hrays|]. split; [exact Hpillars|].
  intros any w. tick_cases any w.
  - lia.
  - unfold animateBlackHole.
    destruct (_ >=? 1);
      cbn [GameState.chaos ChaosState.gammaRays GameState_with_bird_blackHole
           List.length]; lia.
  - rewrite resolveFrame_chaos, frameOf_chaos.
    unfold frameChaos, bind, ret, getFrameCount.
    destruct (GameConfig.chaosEnabled _); cbn [fst]; [|lia].
    match goal with
    | |- context [updateChaos ?c ?s ?f ?h ?w0] =>
        pose proof (updateChaos_rays c s f h w0) as Hr;
        destruct (updateChaos c s f h w0) as [updated w']
    end.
    cbn [fst] in *. unfold checkGravityFlipTrigger.
    now destruct (negb _).
Qed.

(** X17. Hazards spawn rarely.  With hazards on, [updateChaos] spawns
    nothing and draws nothing when no spawnable kind is enabled or when at
    most 400 frames have passed since the last spawn; otherwise it draws
    once, and a draw of 0.3 or more again spawns nothing.  The time of the
    last spawn changes only to the current frame. *)
Theorem hazards_spawn_rarely (chaos : ChaosState.t) (speed : Q) (frame : Z)
    (hazards : ChaosHazards.t) (w : World) :
  ChaosState.enabled chaos = true ->
  let due :=
    (0 <? List.length (enabledHazardsOf hazards))%nat
    && (frame - ChaosState.lastSpawnTime chaos >? SPAWN_INTERVAL)%Z in
  let result := updateChaos chaos speed frame hazards w in
  (enabledHazardsOf hazards = []
   \/ (frame - ChaosState.lastSpawnTime chaos <= 400)%Z ->
   result = (unspawnedChaos chaos speed hazards, w))
  /\ (due = true -> 0.3 <= draws w (cursor w) ->
      fst result = unspawnedChaos chaos speed hazards
      /\ cursor (snd result) = S (cursor w))
  /\ (ChaosState.lastSpawnTime (fst result) = ChaosState.lastSpawnTime chaos
      \/ ChaosState.lastSpawnTime (fst result) = frame).
Proof.
  intros Hon. cbn zeta. split; [|split].
  - intros Hquiet. unfold updateChaos, unspawnedChaos. rewrite Hon. cbn [negb].
    replace (_ && _) with false; [reflexivity|].
    symmetry. destruct Hquiet as [-> | Hearly]; [reflexivity|].
    apply andb_false_iff. right. rewrite Z.gtb_ltb. apply Z.ltb_ge.
    exact Hearly.
  - intros Hdue Hdraw. unfold updateChaos, unspawnedChaos.
    rewrite Hon, Hdue. cbn [negb].
    unfold bind, Math_random.
    replace (_ <? SPAWN_CHANCE) with false
      by (symmetry; apply Qltb_ge; exact Hdraw).
    split; reflexivity.
  - assert (Hin : In (ChaosState.lastSpawnTime
                        (fst (updateChaos chaos speed frame hazards w)))
                     [ChaosState.lastSpawnTime chaos; frame]).
    { unfold updateChaos. rewrite Hon. cbn [negb]. unfold bind at 1.
      match goal with
      | |- context [let (_, _) := ?m in _] =>
          assert (Hlast : In (snd (fst m))
                             [ChaosState.lastSpawnTime chaos; frame]);
          [|destruct m as [[[[rays vortexes] particles] lastSpawn] w'];
            exact Hlast]
      end.
      destruct (_ && _); [|now left].
      unfold bind at 1. unfold Math_random at 1.
      destruct (_ <? SPAWN_CHANCE); [|now left].
      unfold bind at 1. unfold Math_random at 1. unfold bind at 1.
      destruct (spawnHazard _ _ _ _ _) as [entities w1]. right. now left. }
    destruct Hin as [Hsame | [Hnow | []]]; [left|right]; congruence.
Qed.

(** ** The life of a gamma ray (chaos.ts) *)















(** ** The length of the black-hole animation (engine.ts) *)

Lemma frozenAs_refl (state : GameState.t) : frozenAs state state.
Proof. now repeat split. Qed.








(** ** Saving the best score (hooks/useGame.ts) *)

(** X20. The game loop saves the best score only on a tick that both ends
    the game and raises the best score in that same tick.  The state's best
    score already follows the score during play, so when the score was in
    order before the tick, a tick that ends the game without passing a pipe
    saves nothing, however many points the game had gained. *)
Theorem best_score_saved_only_when_last_tick_scores (prev : GameState.t)
    (w : World) :
  let newState := fst (fst (gameLoop prev w)) in
  let saved := snd (fst (gameLoop prev w)) in
  newState = fst (updateGame prev w)
  /\ snd (gameLoop prev w) = snd (updateGame prev w)
  /\ (forall b, saved = Some b ->
        b = GameState.bestScore newState
        /\ GameState.status newState = over
        /\ GameState.status prev = playing
        /\ (GameState.bestScore prev < b)%Z)
  /\ (scoresInOrder prev ->
      forall b, saved = Some b ->
        (GameState.score prev < GameState.score newState)%Z
        /\ b = GameState.score newState)
  /\ (scoresInOrder prev -> inPlay prev ->
      scored (frameOf prev w) = 0%Z -> saved = None).
Proof.
  cbn zeta. unfold gameLoop, bind, ret.
  destruct (updateGame_cases prev w) as [Hcase | [[Hactive Hcase] | [Hplay Hcase]]];
    rewrite Hcase; cbn [fst snd].
  - split; [reflexivity|]. split; [reflexivity|].
    assert (Hnone : match GameState.status prev with
                    | over =>
                        if (GameState.bestScore prev >? GameState.bestScore prev)%Z
                        then Some (GameState.bestScore prev) else None
                    | _ => None
                    end = None).
    { rewrite Z.gtb_ltb, Z.ltb_irrefl. now destruct (GameState.status prev). }
    rewrite Hnone. repeat split; try discriminate. 
  - destruct (animateBlackHole_frame prev) as (Hstatus & _ & Hbest).
    cbn zeta in *. rewrite Hstatus, Hbest, Z.gtb_ltb, Z.ltb_irrefl.
    split; [reflexivity|]. split; [reflexivity|].
    assert (Hnone : match GameState.status prev with
                    | over => @None Z | _ => None end = None)
      by now destruct (GameState.status prev).
    rewrite Hnone. repeat split; try discriminate.
  - rewrite resolveFrame_bestScore.
    pose proof (resolveFrame_score prev (frameOf prev w)) as Hscore.
    pose proof (frameOf_scored_nonneg prev w) as Hnonneg.
    destruct Hplay as (Hstatus & Hrest).
    split; [reflexivity|]. split; [reflexivity|].
    destruct (GameState.status (resolveFrame prev (frameOf prev w))) eqn:Hend.
    + repeat split; try discriminate.
    + repeat split; try discriminate.
    + destruct (Z.gtb_spec
                  (Z.max (GameState.score prev + scored (frameOf prev w))
                         (GameState.bestScore prev))
                  (GameState.bestScore prev)) as [Hraised | Hsame].
      * split; [|split].
        -- intros b [= <-]. repeat split; [exact Hstatus|lia].
        -- intros [Hlow Hhigh] b [= <-]. rewrite Hscore. lia.
        -- intros [Hlow Hhigh] _ Hzero. rewrite Hzero in Hraised. lia.
      * repeat split; try discriminate.
Qed.

(** ** Invariants of a session (engine.ts) *)

Lemma updateGame_status_ready (state : GameState.t) (w : World) :
  GameState.status (fst (updateGame state w)) = ready ->
  GameState.status state = ready.
Proof.
  tick_cases state w.
  - auto.
  - destruct (animateBlackHole_frame state) as (-> & _). auto.
  - destruct Hplay as (Hstatus & _).
    destruct (resolveFrame_status state (frameOf state w)) as [-> | ->];
      [auto|discriminate].
Qed.

(** X21. While a game is playing or over, the hazard aggregate's flag and
    the configuration's flag agree in every state a session can reach; they
    can differ only in a [ready] state, before the first impulse. *)
Theorem flags_agree_once_started (state : GameState.t) :
  reachable state ->
  GameState.status state <> ready ->
  ChaosState.enabled (GameState.chaos state)
  = GameConfig.chaosEnabled (GameState.config state).
Proof.
  intros Hreach. fold (synced state).
  induction Hreach
    as [best | state w _ IH | state w _ IH | state u _ IH | state _ _].
  - intros Hgo. now contradiction Hgo.
  - intros Hgo. unfold handleJump in *.
    destruct (BlackHoleEffect.active _); [now apply IH|].
    destruct (truthy _); [now apply IH|].
    destruct (GameState.status state) eqn:Hstatus;
      first [reflexivity | apply IH; discriminate].
  - intros Hgo. apply updateGame_keeps_synced. apply IH.
    intros Hready. apply Hgo.
    unfold updateGame. now rewrite Hready.
  - intros _. apply updateConfig_synced.
  - intros Hgo. now contradiction Hgo.
Qed.

Lemma getBlackHolePhase_running (progress : Q) :
  (progress >=? 1) = false -> getBlackHolePhase progress <> none.
Proof.
  intros Hshort. unfold getBlackHolePhase, PULL_PHASE, STRETCH_PHASE.
  destruct (progress <? 0.4); [discriminate|].
  destruct (progress <? 1.0) eqn:Hlate; [discriminate|].
  apply Qltb_ge in Hlate. unfold Qgeb in Hshort. exfalso.
  assert (Hge : 1 <= progress) by lra.
  apply Qle_bool_iff in Hge. congruence.
Qed.

(** X22. In every state a session can reach the black hole is consistent
    with the game: it is active only in a playing game, after the event has
    fired, while not waiting, and in a phase other than [none]; when it is
    not active its phase is [none] and its progress 0; and the game waits
    for the player only while playing, after the event has fired, with no
    pipe on screen. *)
Theorem black_hole_consistent (state : GameState.t) :
  reachable state ->
  let hole := GameState.blackHole state in
  (BlackHoleEffect.active hole = true ->
   GameState.status state = playing
   /\ BlackHoleEffect.hasTriggeredThisGame hole = true
   /\ truthy (BlackHoleEffect.waitingToResume hole) = false
   /\ BlackHoleEffect.phase hole <> none)
  /\ (BlackHoleEffect.active hole = false ->
      BlackHoleEffect.phase hole = none /\ BlackHoleEffect.progress hole = 0)
  /\ (truthy (BlackHoleEffect.waitingToResume hole) = true ->
      GameState.status state = playing
      /\ BlackHoleEffect.hasTriggeredThisGame hole = true
      /\ GameState.pipes state = []).
Proof.
  intros Hreach. change (holeConsistent state).
  induction Hreach
    as [best | state w _ IH | state w _ IH | state u _ IH | state _ _].
  - unfold holeConsistent. cbn. repeat split; discriminate.
  - pose proof IH as (Hon & Hoff & Hwaiting). cbn zeta in Hon, Hoff, Hwaiting.
    unfold handleJump.
    destruct (BlackHoleEffect.active (GameState.blackHole state)) eqn:Hactive;
      [exact IH|].
    destruct (truthy (BlackHoleEffect.waitingToResume _)) eqn:Hwait.
    + unfold holeConsistent. cbn. rewrite ?Hactive.
      split; [discriminate|]. split; [auto|discriminate].
    + destruct (GameState.status state) eqn:Hstatus;
        unfold holeConsistent; cbn; rewrite ?Hactive, ?Hwait;
        repeat split; try discriminate; try (apply Hoff; reflexivity).
  - pose proof IH as (Hon & Hoff & Hwaiting). cbn zeta in Hon, Hoff, Hwaiting.
    tick_cases state w.
    + exact IH.
    + destruct (Hon Hactive) as (Hstatus & Hfired & Hwait & _).
      unfold animateBlackHole.
      destruct (_ >=? 1) eqn:Hdone; unfold holeConsistent; cbn;
        rewrite ?Hactive, ?Hwait.
      * repeat split; try discriminate; assumption.
      * split; [|split; discriminate]. intros _.
        repeat split; try assumption.
        now apply getBlackHolePhase_running.
    + destruct Hplay as (Hstatus & Hwait & Hidle).
      unfold resolveFrame.
      destruct (justBeatBestScore _ _); [|destruct (_ || _)];
        unfold holeConsistent; cbn; rewrite ?Hidle, ?Hwait;
        repeat split; try discriminate; try assumption;
        try (apply Hoff; exact Hidle).
  - exact IH.
  - unfold holeConsistent. cbn. repeat split; discriminate.
Qed.

End Properties.

#[local] Existing Instance sampleHost.

Lemma handleJump_ignored_while_active_witness :
  BlackHoleEffect.active
    (GameState.blackHole (withBlackHole (playingState 4) (holeAt 0.5))) = true
  /\ handleJump (withBlackHole (playingState 4) (holeAt 0.5)) sampleWorld
     = (withBlackHole (playingState 4) (holeAt 0.5), sampleWorld).
Proof.
  split; [reflexivity|].
  apply handleJump_ignored_while_active. reflexivity.
Defined.

Lemma updatePipes_cull_witness :
  Pipe.width (pipeAt (-110) 60) == 60 /\ Pipe.x (pipeAt (-110) 60) == -110
  /\ Pipe.width (pipeAt (-100) 60) == 60 /\ Pipe.x (pipeAt (-100) 60) == -100
  /\ 0 <= 4 /\ 4 < 10 /\ 10 <= 10
  /\ updatePipes [pipeAt (-110) 60] 4 = []
  /\ updatePipes [pipeAt (-100) 60] 4
     = [Pipe_with_x (pipeAt (-100) 60) (-100 - 4)]
  /\ updatePipes [pipeAt (-100) 60] 10 = [].
Proof.
  assert (Hw1 : Pipe.width (pipeAt (-110) 60) == 60) by reflexivity.
  assert (Hx1 : Pipe.x (pipeAt (-110) 60) == -110) by reflexivity.
  assert (Hw2 : Pipe.width (pipeAt (-100) 60) == 60) by reflexivity.
  assert (Hx2 : Pipe.x (pipeAt (-100) 60) == -100) by reflexivity.
  assert (H0 : 0 <= 4) by (vm_compute; discriminate).
  assert (H1 : 4 < 10) by reflexivity.
  assert (H2 : 10 <= 10) by (vm_compute; discriminate).
  destruct (updatePipes_cull [] 4) as (_ & _ & Hslow).
  destruct (updatePipes_cull [] 10) as (_ & _ & Hfast).
  destruct (Hslow (pipeAt (-110) 60) Hw1) as (Hdrop & _ & _).
  destruct (Hslow (pipeAt (-100) 60) Hw2) as (_ & Hkeep & _).
  destruct (Hfast (pipeAt (-100) 60) Hw2) as (_ & _ & Hgone).
  exact (conj Hw1 (conj Hx1 (conj Hw2 (conj Hx2 (conj H0 (conj H1 (conj H2
           (conj (Hdrop Hx1 H0) (conj (Hkeep Hx2 H1) (Hgone Hx2 H2)))))))))).
Defined.

(** The claim of C8 read for every speed fails at the top of the speed
    range: at speed 10 the pipe entering at [x = -100] is dropped. *)
Lemma updatePipes_boundary_counterexample :
  updatePipes [pipeAt (-100) 60] 10 = [].
Proof. reflexivity. Qed.


Lemma record_break_starts_black_hole_witness :
  inPlay recordBreakState
  /\ (GameState.bestScore recordBreakState
      < scoreAfterScoring recordBreakState sampleWorld)%Z
  /\ (0 < GameState.bestScore recordBreakState)%Z
  /\ BlackHoleEffect.hasTriggeredThisGame
       (GameState.blackHole recordBreakState) = false
  /\ isBirdOutOfBounds
       (GameState.bird (fst (updateGame recordBreakState sampleWorld))) = true
  /\ checkAnyCollision
       (GameState.bird (fst (updateGame recordBreakState sampleWorld)))
       (GameState.pipes (fst (updateGame recordBreakState sampleWorld))) = true
  /\ BlackHoleEffect.active
       (GameState.blackHole (fst (updateGame recordBreakState sampleWorld)))
     = true
  /\ GameState.status (fst (updateGame recordBreakState sampleWorld)) = playing.
Proof.
  assert (Hplay : inPlay recordBreakState) by (repeat split; reflexivity).
  assert (Hbeat : (GameState.bestScore recordBreakState
                   < scoreAfterScoring recordBreakState sampleWorld)%Z)
    by (vm_compute; reflexivity).
  assert (Hbest : (0 < GameState.bestScore recordBreakState)%Z)
    by (vm_compute; reflexivity).
  assert (Hfresh : BlackHoleEffect.hasTriggeredThisGame
                     (GameState.blackHole recordBreakState) = false)
    by reflexivity.
  destruct (record_break_starts_black_hole recordBreakState sampleWorld
              Hplay Hbeat Hbest Hfresh)
    as (Hactive & _ & _ & _ & Hstatus & _).
  split; [exact Hplay|]. split; [exact Hbeat|]. split; [exact Hbest|].
  split; [exact Hfresh|]. split; [vm_compute; reflexivity|].
  split; [vm_compute; reflexivity|]. split; [exact Hactive|exact Hstatus].
Defined.



(** C6. [updateConfig] and [startGame] write the configuration's flag into
    the hazard aggregate, but [restartGame] keeps the configuration and
    takes a fresh aggregate whose flag is off: restarting a game with chaos
    mode on leaves the two flags different. *)
Theorem restartGame_loses_sync :
  reachable chaoticState
  /\ synced chaoticState
  /\ GameConfig.chaosEnabled (GameState.config (restartGame chaoticState)) = true
  /\ ChaosState.enabled (GameState.chaos (restartGame chaoticState)) = false
  /\ reachable (restartGame chaoticState)
  /\ ~ synced (restartGame chaoticState).
Proof.
  assert (Hreach : reachable chaoticState).
  { apply reach_updateConfig.
    apply (reach_handleJump (createInitialState 0) sampleWorld).
    apply reach_initial. }
  split; [exact Hreach|]. split; [reflexivity|]. split; [reflexivity|].
  split; [reflexivity|]. split; [now apply reach_restartGame|].
  unfold synced. cbn. discriminate.
Qed.

Lemma gravity_never_flips_witness :
  reachable (fst (updateGame chaoticState sampleWorld))
  /\ ChaosState.gravityFlips
       (GameState.chaos (fst (updateGame chaoticState sampleWorld))) = []
  /\ ChaosState.gravityMultiplier
       (GameState.chaos (fst (updateGame chaoticState sampleWorld))) = 1.
Proof.
  assert (Hreach : reachable (fst (updateGame chaoticState sampleWorld))).
  { apply reach_updateGame. apply reach_updateConfig.
    apply (reach_handleJump (createInitialState 0) sampleWorld).
    apply reach_initial. }
  destruct (gravity_never_flips _ Hreach) as (Hflips & Hmult & _).
  exact (conj Hreach (conj Hflips Hmult)).
Defined.





(** * Evaluations of the further properties *)

Lemma linear_ascent_witness :
  0 < 7 /\ (20 <= 20)%nat
  /\ Bird.velocity (fly 0.4 linear 7 20 (jumpBird createBird 7 linear))
     = - 7 * 0.5.
Proof.
  assert (Hjump : 0 < 7) by reflexivity.
  assert (Hn : (20 <= 20)%nat) by lia.
  destruct (linear_ascent createBird 0.4 7 20 Hjump Hn) as (Hv & _).
  exact (conj Hjump (conj Hn Hv)).
Defined.


Lemma pipe_eventually_culled_witness :
  0 < 4 /\ (1 <= 160)%nat
  /\ Pipe.x (pipeAt 530 60) + Pipe.width (pipeAt 530 60) + 50 <= ofNat 160 * 4
  /\ (160 <= 160)%nat
  /\ scroll 4 160 [pipeAt 530 60] = [].
Proof.
  assert (H1 : 0 < 4) by reflexivity.
  assert (H2 : (1 <= 160)%nat) by lia.
  assert (H3 : Pipe.x (pipeAt 530 60) + Pipe.width (pipeAt 530 60) + 50
               <= ofNat 160 * 4) by (vm_compute; discriminate).
  assert (H4 : (160 <= 160)%nat) by lia.
  exact (conj H1 (conj H2 (conj H3 (conj H4
           (pipe_eventually_culled 4 (pipeAt 530 60) 160 H1 H2 H3 160 H4))))).
Defined.

Lemma pillar_or_gap_witness :
  truthy (Pipe.isElectric (livePipeAt 70 60)) = true
  /\ truthy (Pipe.electricActive (livePipeAt 70 60)) = true
  /\ alongside grazingBird (livePipeAt 70 60)
  /\ checkPipeCollision grazingBird (livePipeAt 70 60)
     || checkElectricPipeCollision grazingBird [livePipeAt 70 60] = false.
Proof.
  assert (H1 : truthy (Pipe.isElectric (livePipeAt 70 60)) = true)
    by reflexivity.
  assert (H2 : truthy (Pipe.electricActive (livePipeAt 70 60)) = true)
    by reflexivity.
  assert (H3 : alongside grazingBird (livePipeAt 70 60))
    by (split; reflexivity).
  destruct (pillar_or_gap grazingBird (livePipeAt 70 60)) as [_ Hgraze].
  refine (conj H1 (conj H2 (conj H3 (proj2 (Hgraze H1 H2 H3) _)))).
  split; [vm_compute; discriminate|].
  split; [vm_compute; discriminate|]. left. reflexivity.
Defined.

Lemma tick_only_while_playing_witness :
  GameState.status (createInitialState 0) <> playing
  /\ updateGame (createInitialState 0) sampleWorld
     = (createInitialState 0, sampleWorld)
  /\ GameState.status (aboutToScore 0 0) = playing
  /\ frameCount (snd (updateGame (aboutToScore 0 0) sampleWorld)) = 1%Z.
Proof.
  assert (H1 : GameState.status (createInitialState 0) <> playing)
    by discriminate.
  assert (H2 : GameState.status (aboutToScore 0 0) = playing) by reflexivity.
  assert (H3 : truthy (BlackHoleEffect.waitingToResume
                         (GameState.blackHole (aboutToScore 0 0))) = false)
    by reflexivity.
  destruct (tick_only_while_playing (createInitialState 0) sampleWorld)
    as (Hidle & _).
  destruct (tick_only_while_playing (aboutToScore 0 0) sampleWorld)
    as (_ & _ & Hcount).
  exact (conj H1 (conj (Hidle (or_introl H1)) (conj H2 (Hcount H2 H3)))).
Defined.

Lemma scores_only_grow_witness :
  inPlay (aboutToScore 4 2)
  /\ scoresInOrder (aboutToScore 4 2)
  /\ scoresInOrder (fst (updateGame (aboutToScore 4 2) sampleWorld))
  /\ GameState.bestScore (fst (updateGame (aboutToScore 4 2) sampleWorld))
     = Z.max (GameState.score (fst (updateGame (aboutToScore 4 2) sampleWorld)))
             (GameState.bestScore (aboutToScore 4 2)).
Proof.
  assert (H1 : inPlay (aboutToScore 4 2)) by (repeat split; reflexivity).
  assert (H2 : scoresInOrder (aboutToScore 4 2))
    by (unfold scoresInOrder; cbn; lia).
  destruct (scores_only_grow (aboutToScore 4 2) sampleWorld noUpdate)
    as (_ & _ & Hbest & Horder).
  exact (conj H1 (conj H2 (conj (proj1 (Horder H2)) (Hbest H1)))).
Defined.

Lemma impulse_always_launches_witness :
  BlackHoleEffect.active
    (GameState.blackHole (withStatus (aboutToScore 4 2) over)) = false
  /\ Bird.velocity
       (GameState.bird
          (fst (handleJump (withStatus (aboutToScore 4 2) over) sampleWorld)))
     = applyJump 7 parabolic
  /\ GameState.status
       (fst (handleJump (withStatus (aboutToScore 4 2) over) sampleWorld))
     = playing.
Proof.
  assert (H1 : BlackHoleEffect.active
                 (GameState.blackHole (withStatus (aboutToScore 4 2) over))
               = false) by reflexivity.
  destruct (impulse_always_launches (withStatus (aboutToScore 4 2) over)
              sampleWorld H1) as (Hv & _ & _ & _ & Hplaying & _).
  exact (conj H1 (conj Hv (Hplaying eq_refl))).
Defined.

Lemma restart_forgets_witness :
  GameState.bestScore (aboutToScore 4 2) = GameState.bestScore recordBreakState
  /\ GameState.config (aboutToScore 4 2) = GameState.config recordBreakState
  /\ restartGame (aboutToScore 4 2) = restartGame recordBreakState.
Proof.
  assert (H1 : GameState.bestScore (aboutToScore 4 2)
               = GameState.bestScore recordBreakState) by reflexivity.
  assert (H2 : GameState.config (aboutToScore 4 2)
               = GameState.config recordBreakState) by reflexivity.
  destruct (restart_forgets (aboutToScore 4 2) recordBreakState sampleWorld)
    as (Hsame & _).
  exact (conj H1 (conj H2 (Hsame H1 H2))).
Defined.


Lemma frame_keeps_pipe_geometry_witness :
  inPlay (aboutToScore 0 0)
  /\ exists tail,
       map geometry
         (GameState.pipes (fst (updateGame (aboutToScore 0 0) sampleWorld)))
       = map geometry (updatePipes (GameState.pipes (aboutToScore 0 0)) 4)
         ++ tail
       /\ List.length tail = 1%nat.
Proof.
  assert (H1 : inPlay (aboutToScore 0 0)) by (repeat split; reflexivity).
  destruct (frame_keeps_pipe_geometry (aboutToScore 0 0) sampleWorld H1)
    as (tail & Hgeo & _ & Hspawn).
  split; [exact H1|]. exists tail. split; [exact Hgeo|].
  cbn zeta in Hspawn.
  assert (Hdue : shouldSpawnPipe
                   (updatePipes (GameState.pipes (aboutToScore 0 0))
                      (GameConfig.speed (GameState.config (aboutToScore 0 0))))
                   (GameConfig.pipeSpacing
                      (GameState.config (aboutToScore 0 0))) = true)
    by (vm_compute; reflexivity).
  rewrite Hdue in Hspawn. destruct Hspawn as (top & bottom & -> & _).
  reflexivity.
Defined.

Lemma bird_stays_in_band_witness :
  inPlay chaoticState
  /\ GameConfig.chaosEnabled (GameState.config chaoticState) = true
  /\ 20 <= Bird.x (GameState.bird (fst (updateGame chaoticState sampleWorld)))
  /\ Bird.x (GameState.bird (fst (updateGame chaoticState sampleWorld))) <= 150.
Proof.
  assert (H1 : inPlay chaoticState) by (repeat split; reflexivity).
  assert (H2 : GameConfig.chaosEnabled (GameState.config chaoticState) = true)
    by reflexivity.
  destruct (bird_stays_in_band chaoticState sampleWorld H1)
    as (_ & _ & _ & _ & _ & Hband).
  exact (conj H1 (conj H2 (Hband H2))).
Defined.

Lemma classic_frame_witness :
  inPlay (aboutToScore 0 0)
  /\ GameConfig.chaosEnabled (GameState.config (aboutToScore 0 0)) = false
  /\ ChaosState.enabled (GameState.chaos (aboutToScore 0 0)) = false
  /\ GameState.chaos (fst (updateGame (aboutToScore 0 0) sampleWorld))
     = GameState.chaos (aboutToScore 0 0)
  /\ idCounter (snd (updateGame (aboutToScore 0 0) sampleWorld))
     = idCounter sampleWorld.
Proof.
  assert (H1 : inPlay (aboutToScore 0 0)) by (repeat split; reflexivity).
  assert (H2 : GameConfig.chaosEnabled (GameState.config (aboutToScore 0 0))
               = false) by reflexivity.
  assert (H3 : ChaosState.enabled (GameState.chaos (aboutToScore 0 0)) = false)
    by reflexivity.
  destruct (classic_frame (aboutToScore 0 0) sampleWorld H1 H2 H3)
    as (Hchaos & _ & _ & Hid & _).
  exact (conj H1 (conj H2 (conj H3 (conj Hchaos Hid)))).
Defined.

Lemma superposition_decided_once_witness :
  Pipe.isGhost (hiddenGhostAt 90 60) <> None
  /\ applySchrodingerEffect (hiddenGhostAt 90 60) crowdedChaos sampleWorld
     = (hiddenGhostAt 90 60, sampleWorld).
Proof.
  assert (H1 : Pipe.isGhost (hiddenGhostAt 90 60) <> None) by discriminate.
  destruct (superposition_decided_once (hiddenGhostAt 90 60) crowdedChaos
              highBird sampleWorld) as (Hkept & _).
  exact (conj H1 (Hkept H1)).
Defined.

Lemma at_most_one_gamma_ray_witness :
  reachable (fst (updateGame chaoticState sampleWorld))
  /\ (List.length
        (ChaosState.gammaRays
           (GameState.chaos (fst (updateGame chaoticState sampleWorld))))
      <= 1)%nat.
Proof.
  assert (Hreach : reachable (fst (updateGame chaoticState sampleWorld))).
  { apply reach_updateGame. apply reach_updateConfig.
    apply (reach_handleJump (createInitialState 0) sampleWorld).
    apply reach_initial. }
  destruct (at_most_one_gamma_ray _ Hreach) as (Hrays & _).
  exact (conj Hreach Hrays).
Defined.

Lemma hazards_spawn_rarely_witness :
  ChaosState.enabled crowdedChaos = true
  /\ (1 - ChaosState.lastSpawnTime crowdedChaos <= 400)%Z
  /\ updateChaos crowdedChaos 4 1
       (GameConfig.chaosHazards (GameState.config chaoticState)) sampleWorld
     = (unspawnedChaos crowdedChaos 4
          (GameConfig.chaosHazards (GameState.config chaoticState)),
        sampleWorld).
Proof.
  assert (H1 : ChaosState.enabled crowdedChaos = true) by reflexivity.
  assert (H2 : (1 - ChaosState.lastSpawnTime crowdedChaos <= 400)%Z)
    by (cbn; lia).
  destruct (hazards_spawn_rarely crowdedChaos 4 1
              (GameConfig.chaosHazards (GameState.config chaoticState))
              sampleWorld H1) as (Hquiet & _).
  exact (conj H1 (conj H2 (Hquiet (or_intror H2)))).
Defined.



Lemma best_score_saved_only_when_last_tick_scores_witness :
  scoresInOrder ghostAhead
  /\ inPlay ghostAhead
  /\ scored (frameOf ghostAhead sampleWorld) = 0%Z
  /\ GameState.status (fst (fst (gameLoop ghostAhead sampleWorld))) = over
  /\ snd (fst (gameLoop ghostAhead sampleWorld)) = None.
Proof.
  assert (H1 : scoresInOrder ghostAhead) by (unfold scoresInOrder; cbn; lia).
  assert (H2 : inPlay ghostAhead) by (repeat split; reflexivity).
  assert (H3 : scored (frameOf ghostAhead sampleWorld) = 0%Z)
    by (vm_compute; reflexivity).
  destruct (best_score_saved_only_when_last_tick_scores ghostAhead sampleWorld)
    as (_ & _ & _ & _ & Hnone).
  refine (conj H1 (conj H2 (conj H3 (conj _ (Hnone H1 H2 H3))))).
  vm_compute. reflexivity.
Defined.

Lemma flags_agree_once_started_witness :
  reachable chaoticState
  /\ GameState.status chaoticState <> ready
  /\ ChaosState.enabled (GameState.chaos chaoticState)
     = GameConfig.chaosEnabled (GameState.config chaoticState).
Proof.
  assert (Hreach : reachable chaoticState).
  { apply reach_updateConfig.
    apply (reach_handleJump (createInitialState 0) sampleWorld).
    apply reach_initial. }
  assert (Hgo : GameState.status chaoticState <> ready) by discriminate.
  exact (conj Hreach (conj Hgo (flags_agree_once_started _ Hreach Hgo))).
Defined.

Lemma black_hole_consistent_witness :
  reachable chaoticState
  /\ (BlackHoleEffect.active (GameState.blackHole chaoticState) = false ->
      BlackHoleEffect.phase (GameState.blackHole chaoticState) = none
      /\ BlackHoleEffect.progress (GameState.blackHole chaoticState) = 0).
Proof.
  assert (Hreach : reachable chaoticState).
  { apply reach_updateConfig.
    apply (reach_handleJump (createInitialState 0) sampleWorld).
    apply reach_initial. }
  destruct (black_hole_consistent _ Hreach) as (_ & Hidle & _).
  exact (conj Hreach Hidle).
Defined.
